(** * Restaurant-orders: the order ledger service of [server.js]

    A shallow embedding of the request handlers of [server.js] and the
    properties of the service that follow from them.

    - [JsNumber]: JavaScript numbers (IEEE 754 binary64), [toFixed],
      [parseFloat], [padStart].
    - [Recorder]: the [POST /api/orders] handler over a store with
      connections and transactions.
    - [Dashboard]: the four aggregate queries. *)

From Stdlib Require Import ZArith NArith List String Ascii Bool Lia.
From Stdlib Require Import Floats.SpecFloat DecimalString DecimalPos DecimalN.
From Stdlib Require Import Sorting.Sorted Sorting.Permutation.
Import ListNotations.

Local Open Scope string_scope.

(* ================================================================== *)
(** * JavaScript numbers and strings *)
(* ================================================================== *)

Module JsNumber.

(** A JavaScript number is an IEEE 754 binary64 value. *)
Definition number := spec_float.

Definition prec : Z := 53.
Definition emax : Z := 1024.

Definition mul (x y : number) : number := SFmul prec emax x y.
Definition add (x y : number) : number := SFadd prec emax x y.
Definition sub (x y : number) : number := SFsub prec emax x y.

(** The number value of [(-1)^neg * digits * 10^exp10]: the binary64 value
    nearest to it, ties to even.  Decimal literals of the program text and
    the strings read by [parseFloat] are both converted this way. *)
Definition of_decimal (neg : bool) (digits : N) (exp10 : Z) : number :=
  match digits with
  | N0 => S754_zero neg
  | Npos p =>
      let num := (Zpos p * 10 ^ Z.max exp10 0)%Z in
      let den := (10 ^ Z.max (- exp10) 0)%Z in
      match num, den with
      | Zpos n, Zpos d =>
          SFdiv prec emax (S754_finite neg n 0) (S754_finite false d 0)
      | _, _ => S754_nan
      end
  end.

(** The number value of an integer. *)
Definition of_Z (z : Z) : number :=
  of_decimal (z <? 0)%Z (Z.abs_N z) 0.

(** ** Decimal digit strings *)

Definition digits_of_N (n : N) : string :=
  NilZero.string_of_uint (N.to_uint n).

Fixpoint zeros (k : nat) : string :=
  match k with
  | O => ""
  | S k' => String "0" (zeros k')
  end.

(** ** [Number.prototype.toFixed] *)

(** The integer [n] for which [n / 10^f - m * 2^e] is closest to zero,
    the larger one when there are two. *)
Definition nearest_scaled (m : positive) (e : Z) (f : nat) : N :=
  let scaled := (Zpos m * 10 ^ Z.of_nat f)%Z in
  match e with
  | Zneg p => Z.to_N ((2 * scaled + 2 ^ Zpos p) / 2 ^ (Zpos p + 1))
  | _ => Z.to_N (scaled * 2 ^ e)
  end.

(** [10^21 <= m * 2^e] *)
Definition at_least_1e21 (m : positive) (e : Z) : bool :=
  match e with
  | Zneg p => (10 ^ 21 * 2 ^ Zpos p <=? Zpos m)%Z
  | _ => (10 ^ 21 <=? Zpos m * 2 ^ e)%Z
  end.

(** Steps 11.b to 11.d of toFixed: the digits of [n] with a point before
    the last [f] of them. *)
Definition place_point (n : N) (f : nat) : string :=
  let m := digits_of_N n in
  match f with
  | O => m
  | _ =>
      let m := if (String.length m <=? f)%nat
               then zeros (f + 1 - String.length m) ++ m else m in
      let k := String.length m in
      substring 0 (k - f) m ++ "." ++ substring (k - f) f m
  end.

(** [x.toFixed(f)].  For [|x| >= 10^21] the source yields [String(x)],
    which is in exponent notation; the digits written here denote the same
    number in plain notation, which [parseFloat] reads to the same value. *)
Definition toFixed (x : number) (f : nat) : string :=
  match x with
  | S754_nan => "NaN"
  | S754_infinity s => if s then "-Infinity" else "Infinity"
  | S754_zero _ => place_point 0 f
  | S754_finite s m e =>
      (if s then "-" else "") ++
      (if at_least_1e21 m e
       then digits_of_N (nearest_scaled m e 0)
       else place_point (nearest_scaled m e f) f)
  end.

(** ** [parseFloat] *)

Definition is_white (c : ascii) : bool :=
  let n := nat_of_ascii c in
  ((9 <=? n) && (n <=? 13) || (n =? 32))%nat.

Fixpoint skip_white (s : string) : string :=
  match s with
  | String c rest => if is_white c then skip_white rest else s
  | EmptyString => s
  end.

Definition digit_value (c : ascii) : option N :=
  let n := nat_of_ascii c in
  if ((48 <=? n) && (n <=? 57))%nat then Some (N.of_nat (n - 48)) else None.

(** Reads the longest run of decimal digits: the value accumulated on
    [acc], how many digits were read, and what follows them. *)
Fixpoint read_digits (s : string) (acc : N) (cnt : nat) : N * nat * string :=
  match s with
  | String c rest =>
      match digit_value c with
      | Some d => read_digits rest (10 * acc + d)%N (S cnt)
      | None => (acc, cnt, s)
      end
  | EmptyString => (acc, cnt, s)
  end.

(** The exponent part [e(+|-)?digits], zero when there is none. *)
Definition read_exponent (s : string) : Z :=
  match s with
  | String c rest =>
      if (Ascii.eqb c "e" || Ascii.eqb c "E")%bool then
        let '(neg, rest') :=
          match rest with
          | String "-" r => (true, r)
          | String "+" r => (false, r)
          | _ => (false, rest)
          end in
        let '(v, cnt, _) := read_digits rest' 0%N 0%nat in
        match cnt with
        | O => 0%Z
        | _ => if neg then (- Z.of_N v)%Z else Z.of_N v
        end
      else 0%Z
  | EmptyString => 0%Z
  end.

Definition parseFloat (input : string) : number :=
  let s := skip_white input in
  let '(neg, s) :=
    match s with
    | String "-" r => (true, r)
    | String "+" r => (false, r)
    | _ => (false, s)
    end in
  if String.prefix "Infinity" s then S754_infinity neg
  else
    let '(ip, icnt, s1) := read_digits s 0%N 0%nat in
    let '(mant, fcnt, s2) :=
      match s1 with
      | String "." r => read_digits r ip 0%nat
      | _ => (ip, 0%nat, s1)
      end in
    match (icnt + fcnt)%nat with
    | O => S754_nan
    | _ => of_decimal neg mant (read_exponent s2 - Z.of_nat fcnt)
    end.

(** The value of a string of digits read after [acc], and whether a string
    holds digits only. *)
Fixpoint digits_acc (s : string) (acc : N) : N :=
  match s with
  | String c rest =>
      match digit_value c with
      | Some d => digits_acc rest (10 * acc + d)%N
      | None => acc
      end
  | EmptyString => acc
  end.

Fixpoint all_digits (s : string) : bool :=
  match s with
  | String c rest =>
      match digit_value c with
      | Some _ => all_digits rest
      | None => false
      end
  | EmptyString => true
  end.

(** ** Rounding to two decimals *)

Definition below_1e21 (x : number) : bool :=
  match x with
  | S754_finite _ m e => negb (at_least_1e21 m e)
  | _ => true
  end.

(** Rounding to two decimals as the specification words it: the number
    nearest to [n / 100], for [n] the integer nearest to [100 * x], the one
    further from zero when two are as near.  A number of magnitude
    [10^21] or more is whole already and is kept. *)
Definition round2 (x : number) : number :=
  match x with
  | S754_finite s m e =>
      if at_least_1e21 m e then x
      else of_decimal s (nearest_scaled m e 2) (-2)
  | S754_zero _ => S754_zero false
  | _ => x
  end.

(** ** [String.prototype.padStart] *)

(** The first [n] characters of [fill] repeated for ever; [cur] is what is
    left of the copy being written. *)
Fixpoint fill_to (fill cur : string) (n : nat) : string :=
  match n with
  | O => ""
  | S n' =>
      match cur with
      | String c rest => String c (fill_to fill rest n')
      | EmptyString =>
          match fill with
          | String c rest => String c (fill_to fill rest n')
          | EmptyString => ""
          end
      end
  end.

Definition padStart (s : string) (maxLength : nat) (fillString : string) : string :=
  if (maxLength <=? String.length s)%nat then s
  else fill_to fillString fillString (maxLength - String.length s) ++ s.

End JsNumber.

(* ================================================================== *)
(** * The order recorder: [POST /api/orders] *)
(* ================================================================== *)

Module Recorder.
Import JsNumber.
Local Open Scope list_scope.

(** ** Request bodies *)

(** A value of a parsed JSON body; [JUndefined] is an absent field. *)
#[warnings="-register-all"]
Inductive jsvalue :=
| JUndefined
| JNull
| JBool (b : bool)
| JNumber (x : number)
| JString (s : string)
| JArray (elems : list jsvalue)
| JObject (fields : list (string * jsvalue)).

Record item := {
  item_name : jsvalue;
  price : number;
  quantity : number
}.

(** The [items] field of the body: an array of items, or any other value
    a JSON body can hold there. *)
Inductive items_field :=
| ItemsUndefined
| ItemsNull
| ItemsBool (b : bool)
| ItemsNumber (x : number)
| ItemsString (s : string)
| ItemsObject (fields : list (string * jsvalue))
| ItemsArray (elems : list item).

Definition is_array (it : items_field) : bool :=
  match it with ItemsArray _ => true | _ => false end.

Record payload := {
  customer_name : jsvalue;
  table_number : jsvalue;
  order_type : jsvalue;
  payment_status : jsvalue;
  items : items_field
}.

(** ** The relational store *)

Record order_row := {
  o_id : N;
  o_customer_name : jsvalue;
  o_table_number : jsvalue;
  o_subtotal : number;
  o_discount : number;
  o_gst : number;
  o_total_amount : number;
  o_order_type : jsvalue;
  o_payment_status : jsvalue;
  o_bill_number : string;
  o_created_at : nat;
  o_updated_at : nat
}.

Record order_item_row := {
  oi_order_id : N;
  oi_item_name : jsvalue;
  oi_price : jsvalue;
  oi_quantity : jsvalue;
  oi_total : number;
  oi_created_at : nat;
  oi_updated_at : nat
}.

(** The statements the handler sends, with their parameters. *)
Inductive statement :=
| Begin
| Commit
| Rollback
| NextvalBillNumber
| InsertOrder (customer_name table_number : jsvalue)
              (subtotal discount gst total_amount : number)
              (order_type payment_status : jsvalue) (bill_number : string)
| InsertOrderItem (order_id : N) (item_name price quantity : jsvalue)
                  (total : number).

Inductive query_result :=
| NoRows
| BillNoRow (bill_no : N)
| IdRow (id : N).

(** A write a transaction has made and not yet committed. *)
Inductive write :=
| WOrder (r : order_row)
| WOrderItem (r : order_item_row).

(** Modelled from the spec: the relational store behind [./db], which is
    not part of the sources.  It has the tables [orders] and
    [order_items], the sequence [bill_number_seq], the identity of
    [orders], and connections with the transaction protocol
    begin/commit/rollback.  Only the connection checked out by the
    handler can hold an open transaction here; [client_tx] is that
    transaction's uncommitted writes. *)
Record store := {
  orders : list order_row;
  order_items : list order_item_row;
  bill_number_seq : N;
  orders_id_seq : N;
  client_tx : option (list write)
}.

(** The connection a statement runs on: the one [db.connect()] checked
    out, or one the pool picks for a single [db.query]. *)
Inductive connection := Client | Pooled.

Definition apply_write (s : store) (w : write) : store :=
  match w with
  | WOrder r =>
      {| orders := orders s ++ [r]; order_items := order_items s;
         bill_number_seq := bill_number_seq s;
         orders_id_seq := orders_id_seq s; client_tx := client_tx s |}
  | WOrderItem r =>
      {| orders := orders s; order_items := order_items s ++ [r];
         bill_number_seq := bill_number_seq s;
         orders_id_seq := orders_id_seq s; client_tx := client_tx s |}
  end.

Definition set_tx (s : store) (tx : option (list write)) : store :=
  {| orders := orders s; order_items := order_items s;
     bill_number_seq := bill_number_seq s;
     orders_id_seq := orders_id_seq s; client_tx := tx |}.

(** A row is written into the open transaction of the connection when it
    has one, and straight into the table otherwise (autocommit).  The
    pooled connection of a single [db.query] never has one. *)
Definition write_row (c : connection) (w : write) (s : store) : store :=
  match c, client_tx s with
  | Client, Some pending => set_tx s (Some (pending ++ [w]))
  | _, _ => apply_write s w
  end.

(** Modelled from the spec: what the store does with a statement on a
    connection at time [now].  Sequences advance outside transactions. *)
Definition exec (c : connection) (q : statement) (now : nat) (s : store)
  : query_result * store :=
  match q with
  | Begin =>
      match c, client_tx s with
      | Client, None => (NoRows, set_tx s (Some []))
      | _, _ => (NoRows, s)
      end
  | Commit =>
      match c, client_tx s with
      | Client, Some pending =>
          (NoRows, set_tx (fold_left apply_write pending s) None)
      | _, _ => (NoRows, s)
      end
  | Rollback =>
      match c with
      | Client => (NoRows, set_tx s None)
      | Pooled => (NoRows, s)
      end
  | NextvalBillNumber =>
      let v := (bill_number_seq s + 1)%N in
      (BillNoRow v,
       {| orders := orders s; order_items := order_items s;
          bill_number_seq := v;
          orders_id_seq := orders_id_seq s; client_tx := client_tx s |})
  | InsertOrder cn tn st di gs ta ot ps bn =>
      let id := (orders_id_seq s + 1)%N in
      let r := {| o_id := id; o_customer_name := cn; o_table_number := tn;
                  o_subtotal := st; o_discount := di; o_gst := gs;
                  o_total_amount := ta; o_order_type := ot;
                  o_payment_status := ps; o_bill_number := bn;
                  o_created_at := now; o_updated_at := now |} in
      let s' := {| orders := orders s; order_items := order_items s;
                   bill_number_seq := bill_number_seq s;
                   orders_id_seq := id; client_tx := client_tx s |} in
      (IdRow id, write_row c (WOrder r) s')
  | InsertOrderItem oid nm pr qt tot =>
      let r := {| oi_order_id := oid; oi_item_name := nm; oi_price := pr;
                  oi_quantity := qt; oi_total := tot;
                  oi_created_at := now; oi_updated_at := now |} in
      (NoRows, write_row c (WOrderItem r) s)
  end.

(** ** The handler's effects *)

Inductive error := TypeError | StoreError.

Inductive body :=
| OrderSaved (orderId : N) (billNumber : string)
             (subtotal discount gst totalAmount : number)
| OrderFailed (message : string).

Definition success (b : body) : bool :=
  match b with OrderSaved _ _ _ _ _ _ => true | OrderFailed _ => false end.

Inductive event :=
| EvConnect (ok : bool)
| EvQuery (c : connection) (q : statement) (ok : bool)
| EvRelease
| EvLog
| EvRespond (status : nat).

(** What a request runs in: the store, a clock that ticks at every call
    to the store, the calls the store will fail ([faults t] for the call
    made at time [t]), the events so far, and the response sent. *)
Record world := {
  db : store;
  clock : nat;
  faults : nat -> bool;
  trace : list event;
  response : option (nat * body)
}.

Inductive outcome (A : Type) :=
| Returned (a : A)
| Thrown (e : error).
Arguments Returned {A} a.
Arguments Thrown {A} e.

Definition M (A : Type) : Type := world -> outcome A * world.

Definition ret {A} (a : A) : M A := fun w => (Returned a, w).

Definition throw {A} (e : error) : M A := fun w => (Thrown e, w).

Definition bind {A B} (m : M A) (k : A -> M B) : M B := fun w =>
  match m w with
  | (Returned a, w') => k a w'
  | (Thrown e, w') => (Thrown e, w')
  end.

Declare Scope js_scope.
Delimit Scope js_scope with js.
Notation "x <- m ;; k" := (bind m (fun x => k))
  (at level 100, m at next level, right associativity) : js_scope.
Notation "m ;;; k" := (bind m (fun _ => k))
  (at level 100, right associativity) : js_scope.
Local Open Scope js_scope.

(** [try { body } catch (err) { handler } finally { final }] *)
Definition try_catch_finally {A} (body : M A) (handler : error -> M A)
  (final : M unit) : M A := fun w =>
  let '(r, w1) := body w in
  let '(r', w2) :=
    match r with
    | Returned a => (Returned a, w1)
    | Thrown e => handler e w1
    end in
  match final w2 with
  | (Returned _, w3) => (r', w3)
  | (Thrown e, w3) => (Thrown e, w3)
  end.

Definition emit (ev : event) (w : world) : world :=
  {| db := db w; clock := clock w; faults := faults w;
     trace := trace w ++ [ev]; response := response w |}.

Definition tick (s : store) (w : world) : world :=
  {| db := s; clock := S (clock w); faults := faults w;
     trace := trace w; response := response w |}.

(** A call to the store: it fails as a whole, leaving the tables as they
    are, when [faults] says so. *)
Definition store_call {A} (ev : bool -> event)
  (run : nat -> store -> A * store) : M A := fun w =>
  if faults w (clock w)
  then (Thrown StoreError, emit (ev false) (tick (db w) w))
  else let '(a, s') := run (clock w) (db w) in
       (Returned a, emit (ev true) (tick s' w)).

(** [db.connect()] *)
Definition db_connect : M connection :=
  store_call EvConnect (fun _ s => (Client, s)).

(** [client.query(q)] for the checked-out client and [db.query(q)]. *)
Definition query (c : connection) (q : statement) : M query_result :=
  store_call (EvQuery c q) (exec c q).

Definition db_query (q : statement) : M query_result := query Pooled q.

(** [client.release()] *)
Definition release (c : connection) : M unit :=
  fun w => (Returned tt, emit EvRelease w).

Definition console_error : M unit :=
  fun w => (Returned tt, emit EvLog w).

(** [res.status(status).json(b)] *)
Definition respond (status : nat) (b : body) : M unit := fun w =>
  (Returned tt,
   emit (EvRespond status)
     {| db := db w; clock := clock w; faults := faults w;
        trace := trace w; response := Some (status, b) |}).

(** [items.reduce(callback, init)]: only an array has [reduce]. *)
Definition reduce (it : items_field) (callback : number -> item -> number)
  (init : number) : M number :=
  match it with
  | ItemsArray elems => ret (fold_left callback elems init)
  | _ => throw TypeError
  end.

Fixpoint for_each {A} (l : list A) (f : A -> M unit) : M unit :=
  match l with
  | [] => ret tt
  | x :: rest => f x ;;; for_each rest f
  end.

Fixpoint chars (s : string) : list string :=
  match s with
  | EmptyString => []
  | String c rest => String c "" :: chars rest
  end.

(** [for (const item of items) insert(item)]: arrays and strings are
    iterable; [on_item] is the loop body for an item of an array and
    [on_char] for a character of a string. *)
Definition for_of (it : items_field) (on_item : item -> M unit)
  (on_char : string -> M unit) : M unit :=
  match it with
  | ItemsArray elems => for_each elems on_item
  | ItemsString s => for_each (chars s) on_char
  | _ => throw TypeError
  end.

(** ** The totals *)

Definition zero : number := S754_zero false.
Definition lit_0_10 : number := of_decimal false 10 (-2).
Definition lit_0_18 : number := of_decimal false 18 (-2).
Definition nan : number := S754_nan.

Definition line_total (it : item) : number := mul (price it) (quantity it).

Definition subtotal_step (sum : number) (it : item) : number :=
  add sum (line_total it).

Definition discount (subtotal : number) : number :=
  parseFloat (toFixed (mul subtotal lit_0_10) 2).

Definition gst (subtotal discount : number) : number :=
  parseFloat (toFixed (mul (sub subtotal discount) lit_0_18) 2).

Definition total_amount (subtotal discount gst : number) : number :=
  parseFloat (toFixed (add (sub subtotal discount) gst) 2).

Definition bill_number (bill_no : N) : string :=
  ("BILL-" ++ padStart (digits_of_N bill_no) 6 "0")%string.

(** ** The handler *)

Definition insert_item (orderId : N) (it : item) : M unit :=
  db_query (InsertOrderItem orderId (item_name it) (JNumber (price it))
              (JNumber (quantity it)) (line_total it)) ;;;
  ret tt.

(** A character of a string has none of the properties read from it. *)
Definition insert_char (orderId : N) (c : string) : M unit :=
  db_query (InsertOrderItem orderId JUndefined JUndefined JUndefined nan) ;;;
  ret tt.

Definition createOrder (p : payload) : M unit :=
  client <- db_connect ;;
  try_catch_finally
    (query client Begin ;;;
     subtotal <- reduce (items p) subtotal_step zero ;;
     let discount := discount subtotal in
     let gst := gst subtotal discount in
     let total_amount := total_amount subtotal discount gst in
     billRows <- db_query NextvalBillNumber ;;
     match billRows with
     | BillNoRow bill_no =>
         let bill_number := bill_number bill_no in
         orderResult <- db_query
           (InsertOrder (customer_name p) (table_number p) subtotal discount
              gst total_amount (order_type p) (payment_status p)
              bill_number) ;;
         match orderResult with
         | IdRow orderId =>
             for_of (items p) (insert_item orderId) (insert_char orderId) ;;;
             query client Commit ;;;
             respond 200 (OrderSaved orderId bill_number subtotal discount
                            gst total_amount)
         | _ => throw TypeError
         end
     | _ => throw TypeError
     end)
    (fun err =>
       query client Rollback ;;;
       console_error ;;;
       respond 500 (OrderFailed "Error saving order"))
    (release client).

(** The store at rest and a world around it. *)
Definition empty_store : store :=
  {| orders := []; order_items := []; bill_number_seq := 0;
     orders_id_seq := 0; client_tx := None |}.

Definition initial_world (s : store) (f : nat -> bool) : world :=
  {| db := s; clock := 0; faults := f; trace := []; response := None |}.

Definition run (p : payload) (w : world) : world := snd (createOrder p w).

(** ** Notions the statements below use *)

(** The store answers every call. *)
Definition no_faults (w : world) : Prop := forall t, faults w t = false.

(** The store answers every call and the connection it hands out has no
    transaction open. *)
Definition healthy (w : world) : Prop :=
  no_faults w /\ client_tx (db w) = None.

Definition is_release (ev : event) : bool :=
  match ev with EvRelease => true | _ => false end.

Definition releases (tr : list event) : nat :=
  List.length (filter is_release tr).

(** A computation that adds events to the trace and releases nothing. *)
Definition quiet {A} (m : M A) : Prop :=
  forall w, exists ext,
    trace (snd (m w)) = trace w ++ ext /\ releases ext = 0.

(** The row and the statement of the [order_items] insert for an item. *)
Definition item_row (orderId : N) (now : nat) (it : item) : order_item_row :=
  {| oi_order_id := orderId; oi_item_name := item_name it;
     oi_price := JNumber (price it); oi_quantity := JNumber (quantity it);
     oi_total := line_total it; oi_created_at := now; oi_updated_at := now |}.

Fixpoint item_rows (orderId : N) (now : nat) (elems : list item)
  : list order_item_row :=
  match elems with
  | [] => []
  | it :: rest => item_row orderId now it :: item_rows orderId (S now) rest
  end.

Definition item_event (orderId : N) (it : item) : event :=
  EvQuery Pooled
    (InsertOrderItem orderId (item_name it) (JNumber (price it))
       (JNumber (quantity it)) (line_total it)) true.

(** The amounts of a row of [orders]. *)
Definition amounts (r : order_row) : number * number * number * number :=
  (o_subtotal r, o_discount r, o_gst r, o_total_amount r).

(** ** Notions the statements about failing stores use *)

(** The client's connection has no uncommitted write. *)
Definition no_pending (s : store) : Prop :=
  client_tx s = None \/ client_tx s = Some [].

(** The items of an array, none for any other value. *)
Definition item_list (it : items_field) : list item :=
  match it with
  | ItemsArray elems => elems
  | _ => []
  end.

(** The row of [orders] a request starting in [w] inserts. *)
Definition saved_order (p : payload) (w : world) : order_row :=
  let st := fold_left subtotal_step (item_list (items p)) zero in
  let di := discount st in
  let gs := gst st di in
  {| o_id := orders_id_seq (db w) + 1;
     o_customer_name := customer_name p;
     o_table_number := table_number p;
     o_subtotal := st; o_discount := di; o_gst := gs;
     o_total_amount := total_amount st di gs;
     o_order_type := order_type p;
     o_payment_status := payment_status p;
     o_bill_number := bill_number (bill_number_seq (db w) + 1);
     o_created_at := 3 + clock w; o_updated_at := 3 + clock w |}.

(** How far a request got with the tables: nowhere, as far as taking a
    bill number, or as far as the row of [orders] and the rows of the
    first [k] items. *)
Inductive stage :=
| Untouched
| Numbered
| Ordered (k : nat).

Definition at_stage (p : payload) (w : world) (st : stage) (s' : store)
  : Prop :=
  match st with
  | Untouched =>
      orders s' = orders (db w) /\ order_items s' = order_items (db w)
      /\ bill_number_seq s' = bill_number_seq (db w)
      /\ orders_id_seq s' = orders_id_seq (db w)
  | Numbered =>
      orders s' = orders (db w) /\ order_items s' = order_items (db w)
      /\ bill_number_seq s' = (bill_number_seq (db w) + 1)%N
      /\ orders_id_seq s' = orders_id_seq (db w)
  | Ordered k =>
      is_array (items p) = true
      /\ (k <= List.length (item_list (items p)))%nat
      /\ orders s' = orders (db w) ++ [saved_order p w]
      /\ order_items s'
         = order_items (db w)
           ++ item_rows (orders_id_seq (db w) + 1) (4 + clock w)
                (firstn k (item_list (items p)))
      /\ bill_number_seq s' = (bill_number_seq (db w) + 1)%N
      /\ orders_id_seq s' = (orders_id_seq (db w) + 1)%N
  end.

(** The bill numbers in [orders] differ from one another and come from
    values the sequence has given out. *)
Definition bills_from_sequence (s : store) : Prop :=
  NoDup (map o_bill_number (orders s))
  /\ Forall (fun r => exists v, (v <= bill_number_seq s)%N
                                /\ o_bill_number r = bill_number v)
       (orders s).

(** The ids in [orders] differ from one another and come from values the
    identity of the table has given out. *)
Definition ids_from_sequence (s : store) : Prop :=
  NoDup (map o_id (orders s))
  /\ Forall (fun r => (o_id r <= orders_id_seq s)%N) (orders s).

(** Every row of [order_items] belongs to a row of [orders]. *)
Definition items_reference_orders (s : store) : Prop :=
  Forall (fun r => In (oi_order_id r) (map o_id (orders s))) (order_items s).

(** A computation all of whose events pass [ok]. *)
Definition emits_only (ok : event -> bool) {A} (m : M A) : Prop :=
  forall w, exists ext,
    trace (snd (m w)) = trace w ++ ext /\ forallb ok ext = true.

(** The statements of the transaction protocol, and the events of a trace
    that keep them on the client's connection and everything else off it. *)
Definition is_tx_statement (q : statement) : bool :=
  match q with
  | Begin | Commit | Rollback => true
  | _ => false
  end.

Definition tx_on_client_only (ev : event) : bool :=
  match ev with
  | EvQuery Client q _ => is_tx_statement q
  | EvQuery Pooled q _ => negb (is_tx_statement q)
  | _ => true
  end.

(** ** Sample requests *)

Definition answers_all : nat -> bool := fun _ => false.

Definition fails_at (n : nat) : nat -> bool := fun t => Nat.eqb t n.

Definition tea : item :=
  {| item_name := JString "Tea"; price := of_Z 100; quantity := of_Z 1 |}.

Definition naan : item :=
  {| item_name := JString "Naan"; price := of_Z 40; quantity := of_Z 2 |}.

(** A store with nothing in it that answers every call. *)
Definition opening : world := initial_world empty_store answers_all.

Definition order_of (its : items_field) : payload :=
  {| customer_name := JString "Asha"; table_number := JNumber (of_Z 4);
     order_type := JString "Dine-in"; payment_status := JString "Pending";
     items := its |}.

End Recorder.

(* ================================================================== *)
(** * The dashboard aggregator: [GET /api/dashboard/...] *)
(* ================================================================== *)

Module Dashboard.
Local Open Scope list_scope.
Local Open Scope Z_scope.

(** ** Tables *)

(** Modelled from the spec: the tables the queries read, whose schema is
    not part of the sources, with the columns the queries name.  A
    [timestamp] counts seconds and a [date] counts days, both from the same
    epoch; amounts are values of a decimal column in its smallest unit;
    [None] is SQL NULL. *)
Definition timestamp := Z.
Definition date := Z.

Record order := {
  ord_id : Z;
  ord_customer_name : option string;
  ord_customer_phone : option string;
  ord_total_amount : Z;
  ord_payment_status : option string;
  ord_created_at : timestamp
}.

Record order_item := {
  li_order_id : Z;
  li_item_name : option string;
  li_total : Z
}.

(** [online] is false when the store cannot be reached. *)
Record database := {
  tbl_orders : list order;
  tbl_order_items : list order_item;
  online : bool
}.

(** The store compares a timestamp with a date by taking the date as that
    day at midnight. *)
Definition midnight (d : date) : timestamp := d * 86400.

(** [DATE(ts)] *)
Definition DATE (ts : timestamp) : date := ts / 86400.

(** ** Query parameters *)

(** A value of [req.query]. *)
#[warnings="-register-all"]
Inductive query_value :=
| QUndefined
| QString (s : string)
| QArray (elems : list query_value)
| QObject (fields : list (string * query_value)).

(** [parseParam]; JavaScript's [null] is [None]. *)
Definition parseParam (param : query_value) : option query_value :=
  match param with
  | QUndefined => None
  | _ => Some param
  end.

Inductive response (Row : Type) :=
| Json (rows : list Row)
| Status500 (error : string).
Arguments Json {Row} rows.
Arguments Status500 {Row} error.

Definition rows_of {Row} (r : response Row) : list Row :=
  match r with
  | Json rows => rows
  | Status500 _ => []
  end.

(** ** Grouping and ordering *)

Section Aggregation.
Context {R K A : Type}.
Variable K_dec : forall x y : K, {x = y} + {x <> y}.
Variable key : R -> K.
Variable init : A.
Variable step : R -> A -> A.

Fixpoint add_to_group (r : R) (groups : list (K * A)) : list (K * A) :=
  match groups with
  | [] => [(key r, step r init)]
  | (k, a) :: rest =>
      if K_dec k (key r) then (k, step r a) :: rest
      else (k, a) :: add_to_group r rest
  end.

(** [GROUP BY key] with one aggregate folded over each group. *)
Fixpoint group_by (rows : list R) : list (K * A) :=
  match rows with
  | [] => []
  | r :: rest => add_to_group r (group_by rest)
  end.

(** The rows of the group of [k]. *)
Definition group_rows (k : K) (rows : list R) : list R :=
  filter (fun r => if K_dec k (key r) then true else false) rows.

End Aggregation.

Section Ordering.
Context {T : Type}.
Variable before : T -> T -> bool.

Fixpoint insert_by (x : T) (l : list T) : list T :=
  match l with
  | [] => [x]
  | y :: rest => if before x y then x :: l else y :: insert_by x rest
  end.

(** [ORDER BY]: [before x y] when [x] may stand before [y]. *)
Fixpoint order_by (l : list T) : list T :=
  match l with
  | [] => []
  | x :: rest => insert_by x (order_by rest)
  end.

End Ordering.

Definition option_string_dec (x y : option string) : {x = y} + {x <> y}.
Proof. decide equality. apply string_dec. Defined.

Definition customer_dec (x y : option string * option string)
  : {x = y} + {x <> y}.
Proof. decide equality; apply option_string_dec. Defined.

(** ** Result rows *)

Record item_sales := { item_name : option string; total_sales : Z }.

Record day_sales := { day : date; day_total_sales : Z }.

Record status_share := {
  payment_status : option string;
  count_orders : Z;
  total_amount : Z
}.

Record pending_customer := {
  customer_name : option string;
  customer_phone : option string;
  pending_bills_count : Z;
  total_pending_amount : Z
}.

(** ** The queries *)

(** [($1::date IS NULL OR o.created_at >= $1)
     AND ($2::date IS NULL OR o.created_at <= $2)] *)
Definition in_range (startDate endDate : option date) (o : order) : bool :=
  match startDate with
  | None => true
  | Some d => midnight d <=? ord_created_at o
  end
  &&
  match endDate with
  | None => true
  | Some d => ord_created_at o <=? midnight d
  end.

(** [FROM orders o JOIN order_items oi ON o.id = oi.order_id] *)
Definition join_items (db : database) : list (order * order_item) :=
  flat_map
    (fun o =>
       map (fun oi => (o, oi))
         (filter (fun oi => ord_id o =? li_order_id oi) (tbl_order_items db)))
    (tbl_orders db).

Definition count_and_sum {R} (amount : R -> Z) (r : R) (acc : Z * Z) : Z * Z :=
  (fst acc + 1, snd acc + amount r).

Definition sales_by_item_rows (db : database) (startDate endDate : option date)
  : list item_sales :=
  order_by (fun a b => total_sales b <=? total_sales a)
    (map (fun g => {| item_name := fst g; total_sales := snd g |})
       (group_by option_string_dec (fun j => li_item_name (snd j)) 0
          (fun j acc => acc + li_total (snd j))
          (filter (fun j => in_range startDate endDate (fst j))
             (join_items db)))).

Definition daily_sales_rows (db : database) (startDate endDate : option date)
  : list day_sales :=
  order_by (fun a b => day a <=? day b)
    (map (fun g => {| day := fst g; day_total_sales := snd g |})
       (group_by Z.eq_dec (fun o => DATE (ord_created_at o)) 0
          (fun o acc => acc + ord_total_amount o)
          (filter (in_range startDate endDate) (tbl_orders db)))).

Definition payment_status_rows (db : database) (startDate endDate : option date)
  : list status_share :=
  map (fun g => {| payment_status := fst g; count_orders := fst (snd g);
                   total_amount := snd (snd g) |})
    (group_by option_string_dec ord_payment_status (0, 0)
       (count_and_sum ord_total_amount)
       (filter (in_range startDate endDate) (tbl_orders db))).

(** [payment_status = 'Pending'] *)
Definition is_pending (o : order) : bool :=
  match ord_payment_status o with
  | Some s => String.eqb s "Pending"
  | None => false
  end.

Definition customer_of (o : order) : option string * option string :=
  (ord_customer_name o, ord_customer_phone o).

Definition top_pending_rows (db : database) : list pending_customer :=
  firstn 5
    (order_by (fun a b => total_pending_amount b <=? total_pending_amount a)
       (map (fun g => {| customer_name := fst (fst g);
                         customer_phone := snd (fst g);
                         pending_bills_count := fst (snd g);
                         total_pending_amount := snd (snd g) |})
          (group_by customer_dec customer_of (0, 0)
             (count_and_sum ord_total_amount)
             (filter is_pending (tbl_orders db))))).

(** The orders of a customer that are pending, and the sum of amounts. *)
Definition pending_orders_of (db : database)
  (name phone : option string) : list order :=
  group_rows customer_dec customer_of (name, phone)
    (filter is_pending (tbl_orders db)).

Definition sum_amounts (l : list order) : Z :=
  fold_right Z.add 0 (map ord_total_amount l).

(** ** The handlers *)

Inductive bound :=
| BadDate
| Bound (d : option date).

Section Handlers.

(** The store's reading of a text as a date, [None] when it rejects it. *)
Variable date_in : string -> option date.

(** A parameter used as [$n::date]: the driver sends [null] and
    [undefined] as NULL and a string as it is; an array goes as a
    [{...}] literal and an object as JSON text, neither of which is a
    date. *)
Definition bind_date (p : option query_value) : bound :=
  match p with
  | None => Bound None
  | Some QUndefined => Bound None
  | Some (QString s) =>
      match date_in s with
      | Some d => Bound (Some d)
      | None => BadDate
      end
  | Some (QArray _) => BadDate
  | Some (QObject _) => BadDate
  end.

(** [db.query(query, [p1, p2])] for a query with two date parameters;
    [None] when the promise is rejected. *)
Definition db_query_dates {Row} (db : database)
  (query : option date -> option date -> list Row)
  (p1 p2 : option query_value) : option (list Row) :=
  if online db then
    match bind_date p1, bind_date p2 with
    | Bound s, Bound e => Some (query s e)
    | _, _ => None
    end
  else None.

(** [db.query(query)] *)
Definition db_query_plain {Row} (db : database) (query : list Row)
  : option (list Row) :=
  if online db then Some query else None.

(** [try { res.json(rows) } catch (err) { res.status(500).json(...) }] *)
Definition reply {Row} (r : option (list Row)) : response Row :=
  match r with
  | Some rows => Json rows
  | None => Status500 "Internal server error"
  end.

Definition salesByItem (db : database) (startDate endDate : query_value)
  : response item_sales :=
  reply (db_query_dates db (sales_by_item_rows db)
           (parseParam startDate) (parseParam endDate)).

Definition dailySales (db : database) (startDate endDate : query_value)
  : response day_sales :=
  reply (db_query_dates db (daily_sales_rows db)
           (parseParam startDate) (parseParam endDate)).

Definition paymentStatusDistribution (db : database)
  (startDate endDate : query_value) : response status_share :=
  reply (db_query_dates db (payment_status_rows db)
           (parseParam startDate) (parseParam endDate)).

Definition topPendingCustomers (db : database) : response pending_customer :=
  reply (db_query_plain db (top_pending_rows db)).

End Handlers.

(** ** Dates written [YYYY-MM-DD] *)

Definition is_leap (y : Z) : bool :=
  ((y mod 4 =? 0) && negb (y mod 100 =? 0)) || (y mod 400 =? 0).

Definition days_in_month (y m : Z) : Z :=
  if m =? 2 then (if is_leap y then 29 else 28)
  else if (m =? 4) || (m =? 6) || (m =? 9) || (m =? 11) then 30
  else 31.

(** Days from 1970-01-01 to the given day of the Gregorian calendar. *)
Definition days_from_civil (y m d : Z) : date :=
  let y' := if m <=? 2 then y - 1 else y in
  let era := y' / 400 in
  let yoe := y' - era * 400 in
  let doy := (153 * ((m + 9) mod 12) + 2) / 5 + d - 1 in
  let doe := yoe * 365 + yoe / 4 - yoe / 100 + doy in
  era * 146097 + doe - 719468.

Fixpoint digits_value (l : list ascii) (acc : Z) : option Z :=
  match l with
  | [] => Some acc
  | c :: rest =>
      match JsNumber.digit_value c with
      | Some v => digits_value rest (10 * acc + Z.of_N v)
      | None => None
      end
  end.

(** One text form the store accepts for a date, and the only one this
    reader does: four digits, two digits and two digits, with dashes. *)
Definition iso_date_in (s : string) : option date :=
  match list_ascii_of_string s with
  | [y1; y2; y3; y4; d1; m1; m2; d2; a1; a2] =>
      if (Ascii.eqb d1 "-" && Ascii.eqb d2 "-")%bool then
        match digits_value [y1; y2; y3; y4] 0, digits_value [m1; m2] 0,
              digits_value [a1; a2] 0 with
        | Some y, Some m, Some d =>
            if (1 <=? m) && (m <=? 12) && (1 <=? d) && (d <=? days_in_month y m)
            then Some (days_from_civil y m d) else None
        | _, _, _ => None
        end
      else None
  | _ => None
  end.

(** ** Notions the statements about the queries use *)

Definition sum_Z (l : list Z) : Z := fold_right Z.add 0 l.

(** The orders within the bounds, those of them of one day or of one
    payment status, and the joined lines within the bounds of one item. *)
Definition orders_in_range (db : database) (s e : option date) : list order :=
  filter (in_range s e) (tbl_orders db).

Definition orders_of_day (d : date) (l : list order) : list order :=
  group_rows Z.eq_dec (fun o => DATE (ord_created_at o)) d l.

Definition orders_of_status (st : option string) (l : list order)
  : list order :=
  group_rows option_string_dec ord_payment_status st l.

Definition lines_in_range (db : database) (s e : option date)
  : list (order * order_item) :=
  filter (fun j => in_range s e (fst j)) (join_items db).

Definition lines_of_item (name : option string)
  (l : list (order * order_item)) : list (order * order_item) :=
  group_rows option_string_dec (fun j => li_item_name (snd j)) name l.

Definition customer_key (r : pending_customer)
  : option string * option string :=
  (customer_name r, customer_phone r).

(** ** Sample data *)

(** An order taken on 2024-01-15 at ten in the morning, and its line. *)
Definition lunch : order :=
  {| ord_id := 1; ord_customer_name := Some "Asha";
     ord_customer_phone := None; ord_total_amount := 10620;
     ord_payment_status := Some "Pending";
     ord_created_at := midnight 19737 + 10 * 3600 |}.

Definition lunch_line : order_item :=
  {| li_order_id := 1; li_item_name := Some "Tea"; li_total := 10000 |}.

Definition one_lunch : database :=
  {| tbl_orders := [lunch]; tbl_order_items := [lunch_line]; online := true |}.

(** A paid order of the day before, with its line, and a table of both. *)
Definition supper : order :=
  {| ord_id := 2; ord_customer_name := Some "Ravi";
     ord_customer_phone := Some "555"; ord_total_amount := 4500;
     ord_payment_status := Some "Paid";
     ord_created_at := midnight 19736 + 20 * 3600 |}.

Definition supper_line : order_item :=
  {| li_order_id := 2; li_item_name := Some "Naan"; li_total := 4000 |}.

Definition two_meals : database :=
  {| tbl_orders := [lunch; supper];
     tbl_order_items := [lunch_line; supper_line]; online := true |}.

End Dashboard.

(* ================================================================== *)
(** * Facts about numbers and strings *)
(* ================================================================== *)

Import JsNumber Recorder.
Local Open Scope list_scope.

Lemma length_append (a b : string) :
  String.length (a ++ b)%string = String.length a + String.length b.
Proof.
  induction a as [| c a IH]; simpl; [reflexivity | now rewrite IH].
Qed.

Lemma length_zeros (k : nat) : String.length (zeros k) = k.
Proof.
  induction k as [| k IH]; simpl; [reflexivity | now rewrite IH].
Qed.

Lemma fill_to_zero (cur : string) (n : nat) :
  (forall c, cur = String c "" -> c = "0"%char) ->
  (String.length cur <= 1)%nat ->
  fill_to "0" cur n = zeros n.
Proof.
  revert cur. induction n as [| n IH]; intros cur Hc Hl; simpl; [reflexivity |].
  destruct cur as [| c rest].
  - f_equal. apply IH; [intros c H; discriminate | simpl; lia].
  - destruct rest as [| c' rest']; [| simpl in Hl; lia].
    rewrite (Hc c eq_refl). f_equal.
    apply IH; [intros c0 H; discriminate | simpl; lia].
Qed.

Lemma padStart_zero (s : string) (n : nat) :
  padStart s n "0" = (zeros (n - String.length s) ++ s)%string.
Proof.
  unfold padStart. destruct (Nat.leb_spec n (String.length s)) as [H | H].
  - replace (n - String.length s) with 0 by lia. reflexivity.
  - f_equal. apply fill_to_zero; [| simpl; lia].
    intros c Hc. now inversion Hc.
Qed.

(** ** Reading back what [toFixed] wrote *)

Local Open Scope string_scope.

Ltac eval_digit :=
  match goal with
  | |- context [digit_value ?c] =>
      let v := eval vm_compute in (digit_value c) in
      change (digit_value c) with v; cbv iota beta
  end.

Lemma uint_digits_pos (d : Decimal.uint) (acc : positive) :
  all_digits (NilEmpty.string_of_uint d) = true
  /\ digits_acc (NilEmpty.string_of_uint d) (Npos acc)
     = Npos (Pos.of_uint_acc d acc).
Proof.
  revert acc. induction d as [| d IH | d IH | d IH | d IH | d IH | d IH
                               | d IH | d IH | d IH | d IH]; intro acc;
    cbn [NilEmpty.string_of_uint all_digits digits_acc Pos.of_uint_acc];
    [now split | ..];
    eval_digit;
    (split; [apply (proj1 (IH acc)) |]);
    match goal with
    | |- digits_acc _ ?a = Npos (Pos.of_uint_acc _ ?b) =>
        replace a with (Npos b) by lia; apply (proj2 (IH b))
    end.
Qed.

Lemma uint_digits (d : Decimal.uint) :
  all_digits (NilEmpty.string_of_uint d) = true
  /\ digits_acc (NilEmpty.string_of_uint d) 0 = Pos.of_uint d.
Proof.
  induction d as [| d IH | d IH | d IH | d IH | d IH | d IH
                  | d IH | d IH | d IH | d IH];
    cbn [NilEmpty.string_of_uint all_digits digits_acc Pos.of_uint];
    [now split | ..]; eval_digit; [exact IH | ..];
    apply uint_digits_pos.
Qed.

Lemma string_of_uint_nonnil (d : Decimal.uint) :
  d <> Decimal.Nil ->
  NilZero.string_of_uint d = NilEmpty.string_of_uint d
  /\ (1 <= String.length (NilEmpty.string_of_uint d))%nat.
Proof.
  destruct d; intro H; try contradiction; cbn; split; try reflexivity; lia.
Qed.

Lemma to_uint_nonnil (n : N) : N.to_uint n <> Decimal.Nil.
Proof.
  destruct n; [discriminate | apply DecimalPos.Unsigned.to_uint_nonnil].
Qed.

Lemma digits_of_N_digits (n : N) :
  all_digits (digits_of_N n) = true
  /\ digits_acc (digits_of_N n) 0 = n
  /\ (1 <= String.length (digits_of_N n))%nat.
Proof.
  unfold digits_of_N.
  destruct (string_of_uint_nonnil _ (to_uint_nonnil n)) as [-> Hl].
  destruct (uint_digits (N.to_uint n)) as [H1 H2].
  split; [exact H1 | split; [| exact Hl]].
  rewrite H2. apply DecimalN.Unsigned.of_to.
Qed.

Lemma digit_value_cases (c : ascii) (d : N) :
  digit_value c = Some d ->
  In c ["0"; "1"; "2"; "3"; "4"; "5"; "6"; "7"; "8"; "9"]%char.
Proof.
  destruct c as [[] [] [] [] [] [] [] []]; cbn; intro H;
    solve [discriminate H | auto 11].
Qed.

Lemma digits_acc_app (a b : string) (acc : N) :
  all_digits a = true ->
  digits_acc (a ++ b) acc = digits_acc b (digits_acc a acc).
Proof.
  revert acc. induction a as [| c a IH]; intros acc H; cbn in *; [reflexivity |].
  destruct (digit_value c); [now apply IH | discriminate].
Qed.

Lemma all_digits_app (a b : string) :
  all_digits (a ++ b) = all_digits a && all_digits b.
Proof.
  induction a as [| c a IH]; cbn; [reflexivity |].
  destruct (digit_value c); [exact IH | reflexivity].
Qed.

Lemma read_digits_all (a rest : string) (acc : N) (cnt : nat) :
  all_digits a = true ->
  read_digits (a ++ rest) acc cnt
  = read_digits rest (digits_acc a acc) (cnt + String.length a).
Proof.
  revert acc cnt. induction a as [| c a IH]; intros acc cnt H; cbn in *.
  - now rewrite Nat.add_0_r.
  - destruct (digit_value c); [| discriminate].
    rewrite IH by exact H. now rewrite Nat.add_succ_r.
Qed.

Lemma zeros_digits (k : nat) :
  all_digits (zeros k) = true /\ digits_acc (zeros k) 0 = 0%N.
Proof. induction k as [| k [IH1 IH2]]; cbn; now split. Qed.

Lemma substring_prefix (a b : string) :
  substring 0 (String.length a) (a ++ b) = a.
Proof.
  induction a as [| c a IH]; cbn; [now destruct b | now rewrite IH].
Qed.

Lemma substring_suffix (a b : string) :
  substring (String.length a) (String.length b) (a ++ b) = b.
Proof.
  induction a as [| c a IH]; cbn; [| exact IH].
  induction b as [| c b IHb]; cbn; [reflexivity | now rewrite IHb].
Qed.

Lemma split_last (f : nat) (m : string) :
  (f <= String.length m)%nat ->
  exists a b, m = a ++ b /\ String.length b = f
              /\ String.length a = (String.length m - f)%nat.
Proof.
  induction m as [| c m IH]; intro H; cbn in H.
  - exists "", "". cbn. repeat split; lia.
  - destruct (Nat.eq_dec f (S (String.length m))) as [-> | Hne].
    + exists "", (String c m). cbn. repeat split; lia.
    + destruct IH as (a & b & -> & Hb & Ha); [lia |].
      exists (String c a), b. cbn [append String.length].
      repeat split; [exact Hb |].
      rewrite !length_append in *. lia.
Qed.

Lemma place_point_two (n : N) :
  exists a b,
    place_point n 2 = a ++ "." ++ b
    /\ all_digits a = true /\ all_digits b = true
    /\ (1 <= String.length a)%nat /\ String.length b = 2%nat
    /\ digits_acc b (digits_acc a 0) = n.
Proof.
  destruct (digits_of_N_digits n) as (Hd & Hv & Hl).
  unfold place_point.
  set (m := if (String.length (digits_of_N n) <=? 2)%nat
            then zeros (2 + 1 - String.length (digits_of_N n)) ++ digits_of_N n
            else digits_of_N n).
  assert (Hm : all_digits m = true /\ digits_acc m 0 = n
               /\ (3 <= String.length m)%nat).
  { subst m. destruct (Nat.leb_spec (String.length (digits_of_N n)) 2) as [H | H].
    - destruct (zeros_digits (2 + 1 - String.length (digits_of_N n))) as [Hz1 Hz2].
      rewrite all_digits_app, digits_acc_app, Hz1, Hz2, Hd, Hv by exact Hz1.
      rewrite length_append, length_zeros. repeat split. lia.
    - repeat split; [exact Hd | exact Hv | lia]. }
  destruct Hm as (Hm1 & Hm2 & Hm3).
  destruct (split_last 2 m) as (a & b & Hab & Hb & Ha); [lia |].
  exists a, b.
  assert (Hsub : substring 0 (String.length m - 2) m = a
                 /\ substring (String.length m - 2) 2 m = b).
  { rewrite <- Ha. split.
    - rewrite Hab. apply substring_prefix.
    - rewrite <- Hb, Hab. apply substring_suffix. }
  destruct Hsub as [-> ->].
  rewrite Hab, all_digits_app in Hm1. apply andb_true_iff in Hm1.
  destruct Hm1 as [Ha1 Hb1].
  rewrite Hab, digits_acc_app in Hm2 by exact Ha1.
  repeat split; try assumption. lia.
Qed.

Lemma append_empty_r (s : string) : s ++ "" = s.
Proof. induction s as [| c s IH]; cbn; [reflexivity | now rewrite IH]. Qed.

Lemma parseFloat_fixed (neg : bool) (a b : string) :
  all_digits a = true -> all_digits b = true ->
  (1 <= String.length a)%nat ->
  parseFloat ((if neg then "-" else "") ++ a ++ "." ++ b)
  = of_decimal neg (digits_acc b (digits_acc a 0))
      (- Z.of_nat (String.length b)).
Proof.
  intros Ha Hb Hl.
  destruct a as [| c a']; [cbn in Hl; lia |].
  assert (Hc : exists d, digit_value c = Some d).
  { cbn in Ha. destruct (digit_value c) as [d |]; [now exists d | discriminate]. }
  destruct Hc as [d Hc].
  assert (Hread : read_digits (String c a' ++ "." ++ b) 0 0
                  = (digits_acc (String c a') 0, String.length (String c a'),
                     "." ++ b)).
  { rewrite read_digits_all by exact Ha. reflexivity. }
  assert (Hfrac : forall acc, read_digits b acc 0
                              = (digits_acc b acc, String.length b, "")).
  { intro acc. rewrite <- (append_empty_r b) at 1.
    rewrite read_digits_all by exact Hb. reflexivity. }
  assert (Hfirst : skip_white (String c (a' ++ "." ++ b))
                   = String c (a' ++ "." ++ b)
                   /\ String.prefix "Infinity" (String c (a' ++ "." ++ b)) = false
                   /\ c <> "-"%char /\ c <> "+"%char).
  { apply digit_value_cases in Hc. cbn in Hc.
    repeat (destruct Hc as [<- | Hc]; [repeat split; discriminate |]).
    contradiction. }
  destruct Hfirst as (Hw & Hp & Hm & Hpl).
  unfold parseFloat. destruct neg.
  - cbn [append] in *.
    replace (skip_white (String "-" (String c (a' ++ String "." b))))
      with (String "-" (String c (a' ++ String "." b))) by reflexivity.
    rewrite Hp, Hread, Hfrac.
    cbn [String.length Nat.add read_exponent]. reflexivity.
  - cbn [append] in *. rewrite Hw.
    destruct c as [[] [] [] [] [] [] [] []]; try (exfalso; now (apply Hm || apply Hpl));
      rewrite Hp, Hread, Hfrac;
      cbn [String.length Nat.add read_exponent]; reflexivity.
Qed.

(** The code's [parseFloat(x.toFixed(2))] is the rounding to two decimals
    of the specification wherever [toFixed] writes fixed notation. *)
Lemma round2_refines (x : number) :
  below_1e21 x = true -> parseFloat (toFixed x 2) = round2 x.
Proof.
  destruct x as [s | s | | s m e]; intro H.
  - reflexivity.
  - destruct s; reflexivity.
  - reflexivity.
  - cbn [below_1e21] in H. apply negb_true_iff in H.
    cbn [toFixed round2]. rewrite H.
    destruct (place_point_two (nearest_scaled m e 2))
      as (a & b & -> & Ha & Hb & Hla & Hlb & Hv).
    rewrite parseFloat_fixed by assumption. now rewrite Hv, Hlb.
Qed.

Local Open Scope list_scope.

(** Rounding to two decimals leaves zero as it is. *)
Lemma totals_of_zero :
  discount zero = zero /\ gst zero zero = zero /\
  total_amount zero zero zero = zero.
Proof. vm_compute. repeat split. Qed.

Lemma totals_of_100 :
  discount (of_Z 100) = of_Z 10 /\
  gst (of_Z 100) (of_Z 10) = of_decimal false 1620 (-2) /\
  total_amount (of_Z 100) (of_Z 10) (of_decimal false 1620 (-2))
  = of_decimal false 10620 (-2).
Proof. vm_compute. repeat split. Qed.

(** The strings [toFixed] writes for the amounts of a subtotal of 100. *)
Example toFixed_of_100 :
  toFixed (mul (of_Z 100) lit_0_10) 2 = "10.00"%string /\
  toFixed (mul (sub (of_Z 100) (of_Z 10)) lit_0_18) 2 = "16.20"%string /\
  toFixed (add (sub (of_Z 100) (of_Z 10)) (of_decimal false 1620 (-2))) 2
  = "106.20"%string.
Proof. vm_compute. repeat split. Qed.

(** The product is a binary64 product: ten per cent of 1.15 is a little
    under 0.115 and is written down, to 0.11. *)
Example discount_of_1_15 :
  toFixed (mul (of_decimal false 115 (-2)) lit_0_10) 2 = "0.11"%string.
Proof. vm_compute. reflexivity. Qed.

(* ================================================================== *)
(** * Facts about the order recorder *)
(* ================================================================== *)

(** The arithmetic stays folded while the handler is traced. *)
#[local] Arguments discount : simpl never.
#[local] Arguments gst : simpl never.
#[local] Arguments total_amount : simpl never.
#[local] Arguments bill_number : simpl never.
#[local] Arguments line_total : simpl never.
#[local] Arguments subtotal_step : simpl never.

Lemma store_call_answers {A} (ev : bool -> event)
  (run : nat -> store -> A * store) (w : world) :
  faults w (clock w) = false ->
  store_call ev run w
  = (Returned (fst (run (clock w) (db w))),
     emit (ev true) (tick (snd (run (clock w) (db w))) w)).
Proof.
  intro H. unfold store_call. rewrite H.
  destruct (run (clock w) (db w)); reflexivity.
Qed.

Lemma store_call_fails {A} (ev : bool -> event)
  (run : nat -> store -> A * store) (w : world) :
  faults w (clock w) = true ->
  store_call ev run w = (Thrown StoreError, emit (ev false) (tick (db w) w)).
Proof. intro H. unfold store_call. now rewrite H. Qed.

(** The loop over the items when the store answers: one row per item, in
    the order of the items, each written to the table at once. *)
Lemma for_each_insert_answers (orderId : N) (elems : list item) :
  forall w, no_faults w ->
  for_each elems (insert_item orderId) w
  = (Returned tt,
     {| db := {| orders := orders (db w);
                 order_items :=
                   order_items (db w) ++ item_rows orderId (clock w) elems;
                 bill_number_seq := bill_number_seq (db w);
                 orders_id_seq := orders_id_seq (db w);
                 client_tx := client_tx (db w) |};
        clock := List.length elems + clock w;
        faults := faults w;
        trace := trace w ++ map (item_event orderId) elems;
        response := response w |}).
Proof.
  induction elems as [| it rest IH]; intros [[os ois bs ids tx] c f tr r] Hf.
  - cbn. unfold ret. now rewrite !app_nil_r.
  - unfold no_faults in Hf. cbn in Hf.
    cbn [for_each]. unfold bind at 1. unfold insert_item at 1.
    unfold bind at 1, db_query, query.
    rewrite store_call_answers by apply Hf.
    cbn. unfold ret. rewrite IH by exact Hf. cbn.
    rewrite <- !app_assoc. cbn. now rewrite Nat.add_succ_r.
Qed.

(** The whole run when the store answers and the items are an array. *)
Lemma createOrder_answers (p : payload) (elems : list item) (w : world) :
  items p = ItemsArray elems -> healthy w ->
  let st := fold_left subtotal_step elems zero in
  let di := discount st in
  let gs := gst st di in
  let ta := total_amount st di gs in
  let id := (orders_id_seq (db w) + 1)%N in
  let bn := bill_number (bill_number_seq (db w) + 1) in
  let insert :=
    InsertOrder (customer_name p) (table_number p) st di gs ta
      (order_type p) (payment_status p) bn in
  createOrder p w
  = (Returned tt,
     {| db := {| orders :=
                   orders (db w) ++
                   [{| o_id := id; o_customer_name := customer_name p;
                       o_table_number := table_number p;
                       o_subtotal := st; o_discount := di; o_gst := gs;
                       o_total_amount := ta; o_order_type := order_type p;
                       o_payment_status := payment_status p;
                       o_bill_number := bn;
                       o_created_at := 3 + clock w;
                       o_updated_at := 3 + clock w |}];
                 order_items :=
                   order_items (db w) ++ item_rows id (4 + clock w) elems;
                 bill_number_seq := bill_number_seq (db w) + 1;
                 orders_id_seq := id;
                 client_tx := None |};
        clock := 5 + List.length elems + clock w;
        faults := faults w;
        trace :=
          trace w ++
          [EvConnect true; EvQuery Client Begin true;
           EvQuery Pooled NextvalBillNumber true; EvQuery Pooled insert true]
          ++ map (item_event id) elems
          ++ [EvQuery Client Commit true; EvRespond 200; EvRelease];
        response := Some (200, OrderSaved id bn st di gs ta) |}).
Proof.
  destruct w as [[os ois bs ids tx] c f tr r].
  intros Hi [Hf Htx]. unfold no_faults in Hf. cbn in Hf, Htx. subst tx.
  cbn zeta. unfold createOrder, bind at 1, db_connect.
  rewrite store_call_answers by apply Hf.
  cbn [fst snd]. unfold try_catch_finally.
  unfold bind at 1, query at 1.
  rewrite store_call_answers by apply Hf.
  rewrite Hi. unfold bind at 1, reduce, ret at 1.
  unfold bind at 1, db_query at 1, query at 1.
  rewrite store_call_answers by apply Hf.
  cbn [fst snd exec db clock tick emit bill_number_seq].
  unfold bind at 1, db_query at 1, query at 1.
  rewrite store_call_answers by apply Hf.
  cbn [fst snd exec db clock tick emit orders_id_seq].
  unfold bind at 1, for_of.
  rewrite for_each_insert_answers by (intro t; apply Hf).
  unfold bind at 1, query at 1.
  rewrite store_call_answers by apply Hf.
  unfold bind, respond, release. cbn.
  unfold emit, set_tx. cbn.
  rewrite <- !app_assoc. cbn.
  replace (List.length elems + S (S (S (S c))))
    with (S (S (S (S (List.length elems + c))))) by lia.
  reflexivity.
Qed.

Lemma opening_healthy : healthy opening.
Proof. split; [intro t |]; reflexivity. Defined.

(** C2: for every array of items, when the store answers, createOrder
    answers 200 with, and writes into the row of [orders], the subtotal
    summed without rounding, discount = parseFloat(toFixed(subtotal * 0.10, 2)),
    gst = parseFloat(toFixed((subtotal - discount) * 0.18, 2)) and
    total = parseFloat(toFixed(subtotal - discount + gst, 2)), each of which
    is the rounding to two decimals of what is rounded while that is below
    10^21; a subtotal of 100 gives 10.00, 16.20 and 106.20. *)
Theorem createOrder_totals (p : payload) (elems : list item) (w : world) :
  items p = ItemsArray elems -> healthy w ->
  let st := fold_left (fun sum it => add sum (mul (price it) (quantity it)))
              elems zero in
  let di := parseFloat (toFixed (mul st lit_0_10) 2) in
  let gs := parseFloat (toFixed (mul (sub st di) lit_0_18) 2) in
  let ta := parseFloat (toFixed (add (sub st di) gs) 2) in
  (exists id bn,
      response (run p w) = Some (200, OrderSaved id bn st di gs ta))
  /\ map amounts (orders (db (run p w)))
     = map amounts (orders (db w)) ++ [(st, di, gs, ta)]
  /\ (below_1e21 (mul st lit_0_10) = true -> di = round2 (mul st lit_0_10))
  /\ (below_1e21 (mul (sub st di) lit_0_18) = true ->
      gs = round2 (mul (sub st di) lit_0_18))
  /\ (below_1e21 (add (sub st di) gs) = true ->
      ta = round2 (add (sub st di) gs))
  /\ (st = of_Z 100 ->
      di = of_Z 10 /\ gs = of_decimal false 1620 (-2)
      /\ ta = of_decimal false 10620 (-2)).
Proof.
  intros Hi Hw st di gs ta. unfold run.
  rewrite (createOrder_answers p elems w Hi Hw). cbn [snd response db orders].
  split; [| split; [| split; [| split; [| split]]]].
  - eexists _, _. reflexivity.
  - rewrite map_app. reflexivity.
  - apply round2_refines.
  - apply round2_refines.
  - apply round2_refines.
  - intro H100. subst di gs ta. rewrite H100.
    vm_compute. repeat split.
Qed.

Lemma createOrder_totals_witness :
  items (order_of (ItemsArray [tea])) = ItemsArray [tea] /\ healthy opening /\
  (exists id bn,
      response (run (order_of (ItemsArray [tea])) opening)
      = Some (200, OrderSaved id bn (of_Z 100) (of_Z 10)
                     (of_decimal false 1620 (-2))
                     (of_decimal false 10620 (-2))))
  /\ discount (of_Z 100) = round2 (mul (of_Z 100) lit_0_10)
  /\ discount (of_Z 100) = of_Z 10.
Proof.
  split; [reflexivity | split; [exact opening_healthy | split; [| split]]].
  - exact (proj1 (createOrder_totals (order_of (ItemsArray [tea])) [tea]
                    opening eq_refl opening_healthy)).
  - exact (proj1 (proj2 (proj2 (createOrder_totals
                                  (order_of (ItemsArray [tea])) [tea]
                                  opening eq_refl opening_healthy)))
             eq_refl).
  - exact (proj1 (proj2 (proj2 (proj2 (proj2 (proj2
             (createOrder_totals (order_of (ItemsArray [tea])) [tea]
                opening eq_refl opening_healthy))))) eq_refl)).
Defined.

(** C3: the bill number is "BILL-" followed by the sequence value in
    decimal, with zeros before it up to six characters and nothing cut:
    7 gives "BILL-000007" and 1234567 gives "BILL-1234567"; createOrder
    takes the next value of the sequence and puts that bill number in the
    row of [orders] and in its answer. *)
Theorem bill_number_format :
  (forall n : N,
      bill_number n
      = ("BILL-" ++ zeros (6 - String.length (digits_of_N n))
           ++ digits_of_N n)%string
      /\ String.length (bill_number n)
         = 5 + Nat.max 6 (String.length (digits_of_N n))
      /\ all_digits (digits_of_N n) = true
      /\ digits_acc (digits_of_N n) 0 = n)
  /\ bill_number 7 = "BILL-000007"%string
  /\ bill_number 1234567 = "BILL-1234567"%string
  /\ (forall (p : payload) (elems : list item) (w : world),
        items p = ItemsArray elems -> healthy w ->
        let bn := bill_number (bill_number_seq (db w) + 1) in
        (exists id st di gs ta,
            response (run p w) = Some (200, OrderSaved id bn st di gs ta))
        /\ map o_bill_number (orders (db (run p w)))
           = map o_bill_number (orders (db w)) ++ [bn]
        /\ bill_number_seq (db (run p w)) = (bill_number_seq (db w) + 1)%N).
Proof.
  split; [| split; [reflexivity | split; [reflexivity |]]].
  - intro n. unfold bill_number. rewrite padStart_zero.
    split; [reflexivity | split].
    + rewrite !length_append, length_zeros. simpl String.length. lia.
    + destruct (digits_of_N_digits n) as (H1 & H2 & _). now split.
  - intros p elems w Hi Hw bn. unfold run.
    rewrite (createOrder_answers p elems w Hi Hw).
    cbn [snd response db orders bill_number_seq].
    split; [| split; [| reflexivity]].
    + eexists _, _, _, _, _. reflexivity.
    + rewrite map_app. reflexivity.
Qed.

Lemma bill_number_format_witness :
  items (order_of (ItemsArray [tea])) = ItemsArray [tea] /\ healthy opening /\
  map o_bill_number (orders (db (run (order_of (ItemsArray [tea])) opening)))
  = map o_bill_number (orders (db opening))
    ++ [bill_number (bill_number_seq (db opening) + 1)].
Proof.
  split; [reflexivity | split; [exact opening_healthy |]].
  exact (proj1 (proj2 (proj2 (proj2 (proj2 bill_number_format))
                         (order_of (ItemsArray [tea])) [tea] opening
                         eq_refl opening_healthy))).
Defined.

(** C5: a body whose items are the empty array is not refused: when the
    store answers, the answer is 200 with success, all four amounts are
    zero, one row is added to [orders] and none to [order_items]. *)
Theorem createOrder_empty_items (p : payload) (w : world) :
  items p = ItemsArray [] -> healthy w ->
  exists row,
    orders (db (run p w)) = orders (db w) ++ [row]
    /\ amounts row = (zero, zero, zero, zero)
    /\ order_items (db (run p w)) = order_items (db w)
    /\ response (run p w)
       = Some (200, OrderSaved (o_id row) (o_bill_number row)
                      zero zero zero zero)
    /\ createOrder p w = (Returned tt, run p w).
Proof.
  intros Hi Hw. unfold run.
  rewrite (createOrder_answers p [] w Hi Hw). cbn [snd response db orders order_items].
  eexists. split; [reflexivity |].
  cbn [amounts o_subtotal o_discount o_gst o_total_amount o_id o_bill_number
       fold_left item_rows].
  destruct totals_of_zero as (Hd & Hg & Ht).
  rewrite Hd, Hg, Ht, app_nil_r. repeat split.
Qed.

Lemma createOrder_empty_items_witness :
  items (order_of (ItemsArray [])) = ItemsArray [] /\ healthy opening /\
  exists row,
    orders (db (run (order_of (ItemsArray [])) opening))
    = orders (db opening) ++ [row]
    /\ amounts row = (zero, zero, zero, zero)
    /\ order_items (db (run (order_of (ItemsArray [])) opening))
       = order_items (db opening)
    /\ response (run (order_of (ItemsArray [])) opening)
       = Some (200, OrderSaved (o_id row) (o_bill_number row)
                      zero zero zero zero)
    /\ createOrder (order_of (ItemsArray [])) opening
       = (Returned tt, run (order_of (ItemsArray [])) opening).
Proof.
  split; [reflexivity | split; [exact opening_healthy |]].
  exact (createOrder_empty_items (order_of (ItemsArray [])) opening
           eq_refl opening_healthy).
Defined.

Lemma reduce_not_array (it : items_field) (cb : number -> item -> number)
  (init : number) :
  is_array it = false -> reduce it cb init = throw TypeError.
Proof. destruct it; intro H; try reflexivity; discriminate. Qed.

(** The whole run when the store answers and the items are no array. *)
Lemma createOrder_throws (p : payload) (w : world) :
  is_array (items p) = false -> no_faults w ->
  createOrder p w
  = (Returned tt,
     {| db := set_tx (db w) None;
        clock := 3 + clock w;
        faults := faults w;
        trace := trace w ++ [EvConnect true; EvQuery Client Begin true;
                             EvQuery Client Rollback true; EvLog;
                             EvRespond 500; EvRelease];
        response := Some (500, OrderFailed "Error saving order") |}).
Proof.
  destruct w as [[os ois bs ids tx] c f tr r].
  intros Hi Hf. unfold no_faults in Hf. cbn in Hf.
  unfold createOrder, bind at 1, db_connect.
  rewrite store_call_answers by apply Hf.
  cbn [fst snd]. unfold try_catch_finally.
  unfold bind at 1, query at 1.
  rewrite store_call_answers by apply Hf.
  rewrite (reduce_not_array _ _ _ Hi).
  unfold bind at 1, throw at 1.
  unfold bind at 1, query at 1.
  rewrite store_call_answers by apply Hf.
  unfold bind, console_error, respond, release. cbn.
  unfold emit, set_tx. cbn.
  rewrite <- !app_assoc. cbn.
  destruct tx; reflexivity.
Qed.

(** C9: when the items are absent or anything but an array and the store
    answers, createOrder sends no insert: after BEGIN the reduction throws,
    the handler rolls back, logs, answers 500 with the failure body used
    for every error, and releases the connection; no row is added. *)
Theorem createOrder_items_not_array (p : payload) (w : world) :
  is_array (items p) = false -> no_faults w ->
  trace (run p w)
  = trace w ++ [EvConnect true; EvQuery Client Begin true;
                EvQuery Client Rollback true; EvLog; EvRespond 500;
                EvRelease]
  /\ orders (db (run p w)) = orders (db w)
  /\ order_items (db (run p w)) = order_items (db w)
  /\ client_tx (db (run p w)) = None
  /\ response (run p w) = Some (500, OrderFailed "Error saving order")
  /\ createOrder p w = (Returned tt, run p w).
Proof.
  intros Hi Hf. unfold run.
  rewrite (createOrder_throws p w Hi Hf). cbn. repeat split.
Qed.

Lemma createOrder_items_not_array_witness :
  is_array (items (order_of ItemsUndefined)) = false /\ no_faults opening /\
  response (run (order_of ItemsUndefined) opening)
  = Some (500, OrderFailed "Error saving order").
Proof.
  split; [reflexivity | split; [exact (proj1 opening_healthy) |]].
  exact (proj1 (proj2 (proj2 (proj2 (proj2
           (createOrder_items_not_array (order_of ItemsUndefined) opening
              eq_refl (proj1 opening_healthy))))))).
Defined.

(** ** The connection is released on every path *)

Lemma releases_app (a b : list event) :
  releases (a ++ b) = releases a + releases b.
Proof. unfold releases. now rewrite filter_app, length_app. Qed.

Lemma quiet_ret {A} (a : A) : quiet (ret a).
Proof. intro w. exists []. now rewrite app_nil_r. Qed.

Lemma quiet_throw {A} (e : error) : quiet (@throw A e).
Proof. intro w. exists []. now rewrite app_nil_r. Qed.

Lemma quiet_bind {A B} (m : M A) (k : A -> M B) :
  quiet m -> (forall a, quiet (k a)) -> quiet (bind m k).
Proof.
  intros Hm Hk w. unfold bind.
  destruct (Hm w) as (e1 & He1 & Hr1).
  destruct (m w) as [[a | e] w1]; cbn [snd] in *.
  - destruct (Hk a w1) as (e2 & He2 & Hr2).
    exists (e1 ++ e2). rewrite He2, He1, app_assoc, releases_app. split; [reflexivity | lia].
  - exists e1. now split.
Qed.

Lemma quiet_store_call {A} (ev : bool -> event)
  (run : nat -> store -> A * store) :
  (forall b, is_release (ev b) = false) -> quiet (store_call ev run).
Proof.
  intros Hev w. unfold store_call.
  destruct (faults w (clock w)).
  - exists [ev false]. cbn. unfold releases. cbn. now rewrite Hev.
  - destruct (run (clock w) (db w)) as [a s'].
    exists [ev true]. cbn. unfold releases. cbn. now rewrite Hev.
Qed.

Lemma quiet_query (c : connection) (q : statement) : quiet (query c q).
Proof. apply quiet_store_call. reflexivity. Qed.

Lemma quiet_respond (status : nat) (b : body) : quiet (respond status b).
Proof. intro w. exists [EvRespond status]. now split. Qed.

Lemma quiet_console_error : quiet console_error.
Proof. intro w. exists [EvLog]. now split. Qed.

Lemma quiet_for_each {A} (l : list A) (f : A -> M unit) :
  (forall x, quiet (f x)) -> quiet (for_each l f).
Proof.
  intro Hf. induction l as [| x rest IH]; cbn [for_each].
  - apply quiet_ret.
  - apply quiet_bind; [apply Hf | intros _; exact IH].
Qed.

Create HintDb quiet.

#[local] Hint Resolve quiet_ret quiet_throw quiet_query quiet_respond
  quiet_console_error : quiet.

Lemma quiet_body (p : payload) (client : connection) :
  quiet
    (bind (query client Begin) (fun _ =>
     bind (reduce (items p) subtotal_step zero) (fun subtotal =>
       let discount := discount subtotal in
       let gst := gst subtotal discount in
       let total_amount := total_amount subtotal discount gst in
       bind (db_query NextvalBillNumber) (fun billRows =>
       match billRows with
       | BillNoRow bill_no =>
           let bill_number := bill_number bill_no in
           bind (db_query
             (InsertOrder (customer_name p) (table_number p) subtotal discount
                gst total_amount (order_type p) (payment_status p)
                bill_number)) (fun orderResult =>
           match orderResult with
           | IdRow orderId =>
               bind (for_of (items p) (insert_item orderId)
                       (insert_char orderId)) (fun _ =>
               bind (query client Commit) (fun _ =>
               respond 200 (OrderSaved orderId bill_number subtotal discount
                              gst total_amount)))
           | _ => throw TypeError
           end)
       | _ => throw TypeError
       end)))).
Proof.
  apply quiet_bind; [auto with quiet | intros _].
  apply quiet_bind.
  { unfold reduce. destruct (items p); auto with quiet. }
  intro subtotal. cbn zeta.
  apply quiet_bind; [unfold db_query; auto with quiet | intros billRows].
  destruct billRows; auto with quiet.
  apply quiet_bind; [unfold db_query; auto with quiet | intros orderResult].
  destruct orderResult; auto with quiet.
  apply quiet_bind.
  { unfold for_of. destruct (items p); auto with quiet;
      apply quiet_for_each; intro x;
      (apply quiet_bind; [unfold db_query; auto with quiet | auto with quiet]). }
  intros _. apply quiet_bind; auto with quiet.
Qed.

Lemma quiet_handler (client : connection) :
  quiet
    (bind (query client Rollback) (fun _ =>
     bind console_error (fun _ =>
     respond 500 (OrderFailed "Error saving order")))).
Proof.
  apply quiet_bind; [auto with quiet | intros _].
  apply quiet_bind; auto with quiet.
Qed.

(** A try statement whose finally block releases the connection releases
    it once, last, whatever the two other blocks do. *)
Lemma try_finally_release {A} (body : M A) (handler : error -> M A)
  (c : connection) :
  quiet body -> (forall e, quiet (handler e)) ->
  forall w, exists ext,
    trace (snd (try_catch_finally body handler (release c) w))
    = trace w ++ ext ++ [EvRelease]
    /\ releases ext = 0.
Proof.
  intros Hb Hh w. unfold try_catch_finally.
  destruct (Hb w) as (e1 & He1 & Hr1).
  destruct (body w) as [[a | e] w1]; cbn [snd] in *.
  - exists e1. cbn. rewrite He1, app_assoc. now split.
  - destruct (Hh e w1) as (e2 & He2 & Hr2).
    destruct (handler e w1) as [r2 w2]; cbn [snd] in *.
    exists (e1 ++ e2). cbn. rewrite He2, He1, releases_app, !app_assoc.
    split; [reflexivity | lia].
Qed.

Lemma createOrder_trace (p : payload) (w : world) :
  faults w (clock w) = false ->
  exists mid,
    trace (run p w) = trace w ++ [EvConnect true] ++ mid ++ [EvRelease]
    /\ releases mid = 0%nat.
Proof.
  intro Hc. unfold run, createOrder, bind at 1, db_connect.
  rewrite store_call_answers by exact Hc. cbn [fst snd].
  match goal with
  | |- context [try_catch_finally ?b ?h (release Client) ?w0] =>
      destruct (try_finally_release b h Client (quiet_body p Client)
                  (fun _ => quiet_handler Client) w0) as (mid & Hm & Hr)
  end.
  exists mid. rewrite Hm. cbn [trace emit tick]. rewrite <- app_assoc.
  split; [reflexivity | exact Hr].
Qed.

(** C8: once the connection is checked out, every run of createOrder,
    whatever the store fails and whatever the body holds, releases it
    exactly once, as the last thing it does. *)
Theorem createOrder_releases_once (p : payload) (w : world) :
  faults w (clock w) = false ->
  exists mid,
    trace (run p w) = trace w ++ [EvConnect true] ++ mid ++ [EvRelease]
    /\ releases mid = 0%nat
    /\ releases (trace (run p w)) = (releases (trace w) + 1)%nat.
Proof.
  intro Hc. destruct (createOrder_trace p w Hc) as (mid & Ht & Hr).
  exists mid. split; [exact Ht | split; [exact Hr |]].
  rewrite Ht, !releases_app, Hr. reflexivity.
Qed.

Lemma createOrder_releases_once_witness :
  faults (initial_world empty_store (fails_at 5))
    (clock (initial_world empty_store (fails_at 5))) = false /\
  exists mid,
    trace (run (order_of (ItemsArray [tea; naan]))
             (initial_world empty_store (fails_at 5)))
    = trace (initial_world empty_store (fails_at 5))
      ++ [EvConnect true] ++ mid ++ [EvRelease]
    /\ releases mid = 0
    /\ releases (trace (run (order_of (ItemsArray [tea; naan]))
                          (initial_world empty_store (fails_at 5))))
       = releases (trace (initial_world empty_store (fails_at 5))) + 1.
Proof.
  split; [reflexivity |].
  exact (createOrder_releases_once (order_of (ItemsArray [tea; naan]))
           (initial_world empty_store (fails_at 5)) eq_refl).
Defined.

(** ** What a rollback undoes *)

(** A row inserted on the client's connection inside its transaction is
    gone after ROLLBACK. *)
Lemma rollback_discards_client_insert (s : store) (pending : list write)
  (t1 t2 : nat) (cn tn : jsvalue) (st di gs ta : number) (ot ps : jsvalue)
  (bn : string) :
  client_tx s = Some pending ->
  let s' := snd (exec Client Rollback t2
                   (snd (exec Client
                           (InsertOrder cn tn st di gs ta ot ps bn) t1 s))) in
  orders s' = orders s /\ order_items s' = order_items s.
Proof.
  intro H. destruct s as [os ois bs ids tx]. cbn in H. subst tx.
  cbn. split; reflexivity.
Qed.

(** A row inserted through [db.query] is in the table at once, and a
    ROLLBACK on the client's connection leaves it there. *)
Lemma rollback_keeps_pooled_insert (s : store) (t1 t2 : nat)
  (cn tn : jsvalue) (st di gs ta : number) (ot ps : jsvalue) (bn : string) :
  let s' := snd (exec Client Rollback t2
                   (snd (exec Pooled
                           (InsertOrder cn tn st di gs ta ot ps bn) t1 s))) in
  List.length (orders s') = S (List.length (orders s)).
Proof.
  destruct s as [os ois bs ids tx]. cbn.
  rewrite length_app. cbn. lia.
Qed.

(** C1 fails on the code: with two items and the store failing the insert
    of the second, the handler rolls back the client's transaction and
    answers 500, and yet the row of [orders] and the row of the first item
    stay, because the inserts went through [db.query], outside the
    transaction that BEGIN opened on the client. *)
Theorem createOrder_not_atomic :
  let w := run (order_of (ItemsArray [tea; naan]))
             (initial_world empty_store (fails_at 5)) in
  response w = Some (500, OrderFailed "Error saving order")
  /\ map o_bill_number (orders (db w)) = ["BILL-000001"%string]
  /\ map oi_item_name (order_items (db w)) = [JString "Tea"]
  /\ trace w
     = [EvConnect true; EvQuery Client Begin true;
        EvQuery Pooled NextvalBillNumber true;
        EvQuery Pooled
          (InsertOrder (JString "Asha") (JNumber (of_Z 4)) (of_Z 180)
             (of_Z 18) (of_decimal false 2916 (-2))
             (of_decimal false 19116 (-2)) (JString "Dine-in")
             (JString "Pending") "BILL-000001") true;
        item_event 1 tea;
        EvQuery Pooled
          (InsertOrderItem 1 (JString "Naan") (JNumber (of_Z 40))
             (JNumber (of_Z 2)) (of_Z 80)) false;
        EvQuery Client Rollback true; EvLog; EvRespond 500; EvRelease].
Proof. vm_compute. repeat split. Qed.

(* ================================================================== *)
(** * Further facts about the order recorder *)
(* ================================================================== *)

(** ** Bill numbers tell sequence values apart *)

Lemma bill_number_reads_back (n : N) :
  exists k, bill_number n = ("BILL-" ++ zeros k ++ digits_of_N n)%string
            /\ digits_acc (zeros k ++ digits_of_N n)%string 0 = n.
Proof.
  exists (6 - String.length (digits_of_N n))%nat.
  unfold bill_number. rewrite padStart_zero. split; [reflexivity |].
  destruct (zeros_digits (6 - String.length (digits_of_N n))) as [Hz1 Hz2].
  destruct (digits_of_N_digits n) as (_ & Hv & _).
  now rewrite digits_acc_app, Hz2, Hv.
Qed.

Lemma bill_number_differs (n m : N) :
  n <> m -> bill_number n <> bill_number m.
Proof.
  intros Hne Heq.
  destruct (bill_number_reads_back n) as (k & Hn & Hvn).
  destruct (bill_number_reads_back m) as (j & Hm & Hvm).
  rewrite Hn, Hm in Heq. cbn [append] in Heq.
  inversion Heq as [Hrest]. apply Hne.
  rewrite <- Hvn, <- Hvm. now rewrite Hrest.
Qed.

(** X7: two different values of the sequence never give the same bill
    number. *)
Theorem bill_number_distinct (n m : N) :
  n <> m -> bill_number n <> bill_number m.
Proof.
  intros Hne Heq.
  destruct (bill_number_reads_back n) as (k & Hn & Hvn).
  destruct (bill_number_reads_back m) as (j & Hm & Hvm).
  assert (Hdigits : (zeros k ++ digits_of_N n)%string
                    = (zeros j ++ digits_of_N m)%string).
  { rewrite Hn, Hm in Heq. cbn [append] in Heq. now inversion Heq. }
  apply Hne. rewrite <- Hvn, <- Hvm. now rewrite Hdigits.
Qed.

Lemma bill_number_distinct_witness :
  7%N <> 1234567%N /\ bill_number 7 <> bill_number 1234567.
Proof.
  split; [discriminate |].
  exact (bill_number_distinct 7 1234567 ltac:(discriminate)).
Defined.

(** ** What a request leaves in the tables, whatever the store fails *)

(** The loop over the items writes the rows of the first [k] items for
    some [k], all of them if it returns, and touches nothing else. *)
Lemma for_each_insert_effect (orderId : N) (elems : list item) :
  forall w out w',
    for_each elems (insert_item orderId) w = (out, w') ->
    exists k,
      (k <= List.length elems)%nat
      /\ orders (db w') = orders (db w)
      /\ order_items (db w')
         = order_items (db w) ++ item_rows orderId (clock w) (firstn k elems)
      /\ bill_number_seq (db w') = bill_number_seq (db w)
      /\ orders_id_seq (db w') = orders_id_seq (db w)
      /\ client_tx (db w') = client_tx (db w)
      /\ faults w' = faults w
      /\ response w' = response w
      /\ (out = Returned tt -> k = List.length elems)
      /\ (out = Returned tt \/ out = Thrown StoreError).
Proof.
  induction elems as [| it rest IH]; intros w out w' H.
  - cbn in H. inversion H; subst. exists 0%nat. cbn. rewrite app_nil_r.
    repeat split; auto.
  - cbn [for_each] in H. unfold bind at 1, insert_item at 1, bind at 1,
      db_query, query in H.
    destruct (faults w (clock w)) eqn:Hf.
    + rewrite store_call_fails in H by exact Hf. inversion H; subst.
      exists 0%nat. cbn. rewrite app_nil_r.
      repeat split; auto; try lia. intro H0. discriminate H0.
    + rewrite store_call_answers in H by exact Hf.
      cbn [fst snd exec] in H. unfold ret in H.
      apply IH in H.
      destruct H as (k & Hk & Ho & Hi & Hb & Hd & Ht & Hfa & Hr & Hret & Hout).
      exists (S k). rewrite Ho, Hi, Hb, Hd, Ht, Hfa, Hr.
      destruct w as [[os ois bs ids tx] c f tr r]. cbn.
      rewrite <- app_assoc. cbn.
      repeat split; auto; try lia.
Qed.

Ltac store_step H :=
  unfold bind at 1 in H;
  lazymatch type of H with
  | context [db_query ?q ?w0] =>
      change (db_query q w0)
        with (store_call (EvQuery Pooled q) (exec Pooled q) w0) in H
  | context [query ?c ?q ?w0] =>
      change (query c q w0)
        with (store_call (EvQuery c q) (exec c q) w0) in H
  end;
  lazymatch type of H with
  | context [store_call ?ev ?run ?w0] =>
      let F := fresh "F" in
      destruct (faults w0 (clock w0)) eqn:F;
      [rewrite (store_call_fails ev run w0 F) in H
      | rewrite (store_call_answers ev run w0 F) in H];
      cbn [fst snd exec db clock faults trace response tick emit orders
           order_items bill_number_seq orders_id_seq client_tx set_tx
           write_row apply_write fold_left] in H
  end.

Lemma begin_no_pending (t : nat) (s : store) :
  no_pending s -> exec Client Begin t s = (NoRows, set_tx s (Some [])).
Proof.
  destruct s as [os ois bs ids tx]. intros [H | H]; cbn in H; subst;
    reflexivity.
Qed.

(** The body of the try statement, started right after the connection
    was checked out in [w]. *)
Lemma try_body_effect (p : payload) (w : world) (r : outcome unit)
  (w1 : world) :
  no_pending (db w) ->
  bind (query Client Begin) (fun _ =>
  bind (reduce (items p) subtotal_step zero) (fun subtotal =>
    let discount := discount subtotal in
    let gst := gst subtotal discount in
    let total_amount := total_amount subtotal discount gst in
    bind (db_query NextvalBillNumber) (fun billRows =>
    match billRows with
    | BillNoRow bill_no =>
        let bill_number := bill_number bill_no in
        bind (db_query
          (InsertOrder (customer_name p) (table_number p) subtotal discount
             gst total_amount (order_type p) (payment_status p)
             bill_number)) (fun orderResult =>
        match orderResult with
        | IdRow orderId =>
            bind (for_of (items p) (insert_item orderId)
                    (insert_char orderId)) (fun _ =>
            bind (query Client Commit) (fun _ =>
            respond 200 (OrderSaved orderId bill_number subtotal discount
                           gst total_amount)))
        | _ => throw TypeError
        end)
    | _ => throw TypeError
    end)))
    (emit (EvConnect true) (tick (db w) w)) = (r, w1) ->
  exists st,
    at_stage p w st (db w1)
    /\ no_pending (db w1)
    /\ faults w1 = faults w
    /\ match r with
       | Returned _ =>
           st = Ordered (List.length (item_list (items p)))
           /\ response w1
              = Some (200, OrderSaved (o_id (saved_order p w))
                             (o_bill_number (saved_order p w))
                             (o_subtotal (saved_order p w))
                             (o_discount (saved_order p w))
                             (o_gst (saved_order p w))
                             (o_total_amount (saved_order p w)))
       | Thrown _ => response w1 = response w
       end.
Proof.
  intros Htx H.
  destruct w as [[os ois bs ids tx] c f tr rs].
  unfold bind at 1 in H.
  change (query Client Begin ?w0)
    with (store_call (EvQuery Client Begin) (exec Client Begin) w0) in H.
  match type of H with
  | context [store_call ?ev ?run ?w0] =>
      destruct (faults w0 (clock w0)) eqn:F;
      [rewrite (store_call_fails ev run w0 F) in H
      | rewrite (store_call_answers ev run w0 F) in H]
  end.
  { inversion H; subst. exists Untouched. cbn. repeat split; auto. }
  cbn [db tick emit] in H. rewrite (begin_no_pending _ _ Htx) in H.
  cbn [fst snd db clock faults trace response tick emit orders
       order_items bill_number_seq orders_id_seq client_tx set_tx] in H.
  clear F.
  unfold bind at 1 in H.
  destruct (items p) as [| | b | x | s | fs | elems] eqn:Hi;
    try (cbn in H; inversion H; subst; exists Untouched; cbn;
         repeat split; auto; right; reflexivity).
  cbn [reduce] in H. unfold ret at 1 in H. cbn beta iota zeta in H.
  store_step H.
  { inversion H; subst. exists Untouched. cbn.
    repeat split; auto; right; reflexivity. }
  store_step H.
  { inversion H; subst. exists Numbered. cbn.
    repeat split; auto; right; reflexivity. }
  unfold bind at 1, for_of in H.
  match type of H with
  | context [for_each elems (insert_item ?id) ?w0] =>
      destruct (for_each elems (insert_item id) w0) as [lo lw] eqn:Hloop;
      apply for_each_insert_effect in Hloop;
      destruct Hloop as (k & Hk & Ho & Hit & Hb & Hd & Ht & Hfa & Hr
                         & Hret & Hout)
  end.
  cbn [db clock faults response orders order_items bill_number_seq
       orders_id_seq client_tx] in Ho, Hit, Hb, Hd, Ht, Hfa, Hr.
  assert (Hstage : forall s', orders s' = orders (db lw) ->
                     order_items s' = order_items (db lw) ->
                     bill_number_seq s' = bill_number_seq (db lw) ->
                     orders_id_seq s' = orders_id_seq (db lw) ->
                     at_stage p
                       {| db := {| orders := os; order_items := ois;
                                   bill_number_seq := bs;
                                   orders_id_seq := ids; client_tx := tx |};
                          clock := c; faults := f; trace := tr;
                          response := rs |} (Ordered k) s').
  { intros s' E1 E2 E3 E4. cbn [at_stage db clock]. rewrite Hi.
    cbn [is_array item_list]. rewrite E1, E2, E3, E4, Ho, Hit, Hb, Hd.
    unfold saved_order. cbn [db clock items]. rewrite Hi. cbn [item_list].
    cbn. repeat split; auto. }
  assert (Hpend : no_pending (db lw)).
  { unfold no_pending. rewrite Ht. right; reflexivity. }
  destruct Hout as [-> | ->].
  2: { inversion H; subst. exists (Ordered k).
       split; [now apply Hstage | split; [exact Hpend | split; [exact Hfa |]]].
       exact Hr. }
  specialize (Hret eq_refl). subst k.
  store_step H.
  { inversion H; subst. exists (Ordered (List.length elems)).
    cbn [db faults response].
    split; [| split; [exact Hpend | split; [exact Hfa | exact Hr]]].
    now apply Hstage. }
  unfold respond in H. inversion H; subst. clear H.
  exists (Ordered (List.length elems)). cbn [db faults response emit].
  rewrite Ht. cbn [fold_left set_tx orders order_items bill_number_seq
                   orders_id_seq client_tx].
  split; [apply Hstage; reflexivity |].
  split; [left; reflexivity |].
  split; [exact Hfa |].
  cbn [item_list]. split; [reflexivity |].
  unfold saved_order. cbn. rewrite Hi. reflexivity.
Qed.

Lemma at_stage_set_tx (p : payload) (w : world) (st : stage) (s : store)
  (tx : option (list write)) :
  at_stage p w st s -> at_stage p w st (set_tx s tx).
Proof. destruct st, s; cbn; auto. Qed.

(** Every run, whatever the store fails: where the tables are left, and
    how the run ends. *)
Lemma createOrder_effect (p : payload) (w : world) (out : outcome unit)
  (w' : world) :
  createOrder p w = (out, w') -> no_pending (db w) ->
  exists st,
    at_stage p w st (db w')
    /\ no_pending (db w')
    /\ faults w' = faults w
    /\ ((out = Thrown StoreError /\ response w' = response w)
        \/ (out = Returned tt
            /\ response w' = Some (500, OrderFailed "Error saving order"))
        \/ (out = Returned tt
            /\ st = Ordered (List.length (item_list (items p)))
            /\ response w'
               = Some (200, OrderSaved (o_id (saved_order p w))
                              (o_bill_number (saved_order p w))
                              (o_subtotal (saved_order p w))
                              (o_discount (saved_order p w))
                              (o_gst (saved_order p w))
                              (o_total_amount (saved_order p w))))).
Proof.
  intros H Htx. unfold createOrder, bind at 1, db_connect in H.
  destruct (faults w (clock w)) eqn:F.
  { rewrite store_call_fails in H by exact F. inversion H; subst.
    exists Untouched. destruct w as [[os ois bs ids tx] c f tr rs]. cbn.
    repeat split; auto. }
  rewrite store_call_answers in H by exact F. cbn [fst snd] in H.
  unfold try_catch_finally in H.
  match type of H with
  | context [let '(r, w1) := ?b ?w0 in _] =>
      destruct (b w0) as [r w1] eqn:Hbody
  end.
  apply try_body_effect in Hbody; [| exact Htx].
  destruct Hbody as (st & Hst & Hp & Hf & Hr).
  destruct r as [[] | e].
  - unfold release in H. inversion H; subst. clear H.
    destruct Hr as [-> Hr200]. exists (Ordered (List.length (item_list (items p)))).
    cbn [db faults response emit].
    split; [exact Hst | split; [exact Hp | split; [exact Hf |]]].
    right. right. repeat split. exact Hr200.
  - store_step H.
    + unfold release in H. inversion H; subst. clear H.
      exists st. cbn [db faults response emit tick].
      split; [exact Hst | split; [exact Hp | split; [exact Hf |]]].
      left. split; [reflexivity | exact Hr].
    + unfold bind at 1, console_error at 1, respond, release in H.
      inversion H; subst. clear H.
      exists st. cbn [db faults response emit tick].
      split; [now apply at_stage_set_tx |].
      split; [left; destruct (db w1); reflexivity |].
      split; [exact Hf |].
      right. left. split; reflexivity.
Qed.

Lemma item_rows_fields (orderId : N) (now : nat) (elems : list item) :
  map oi_total (item_rows orderId now elems)
  = map (fun it => mul (price it) (quantity it)) elems
  /\ map oi_item_name (item_rows orderId now elems) = map item_name elems
  /\ Forall (fun r => oi_order_id r = orderId) (item_rows orderId now elems).
Proof.
  revert now. induction elems as [| it rest IH]; intro now; cbn.
  - repeat split; constructor.
  - destruct (IH (S now)) as (H1 & H2 & H3). rewrite H1, H2.
    repeat split. constructor; [reflexivity | exact H3].
Qed.

Lemma item_rows_firstn (orderId : N) (now k : nat) (elems : list item) :
  item_rows orderId now (firstn k elems)
  = firstn k (item_rows orderId now elems).
Proof.
  revert now k. induction elems as [| it rest IH]; intros now [| k]; cbn;
    try reflexivity.
  now rewrite IH.
Qed.

(** X8: whatever the store fails, a request either leaves [orders] and
    [order_items] as they were, or adds its one row to [orders] and, to
    [order_items], the rows of its first k items in their order, for some
    k; the bill sequence moves on by one at most, and by one whenever the
    row was added. *)
Theorem createOrder_writes_a_prefix (p : payload) (w : world) :
  no_pending (db w) ->
  ((orders (db (run p w)) = orders (db w)
    /\ order_items (db (run p w)) = order_items (db w))
   \/ (bill_number_seq (db (run p w)) = (bill_number_seq (db w) + 1)%N
       /\ orders (db (run p w)) = orders (db w) ++ [saved_order p w]
       /\ exists k,
            order_items (db (run p w))
            = order_items (db w)
              ++ firstn k (item_rows (o_id (saved_order p w)) (4 + clock w)
                             (item_list (items p)))))
  /\ (bill_number_seq (db (run p w)) = bill_number_seq (db w)
      \/ bill_number_seq (db (run p w)) = (bill_number_seq (db w) + 1)%N).
Proof.
  intro Htx. unfold run. destruct (createOrder p w) as [out w'] eqn:H.
  apply createOrder_effect in H; [| exact Htx].
  destruct H as (st & Hst & _). cbn [snd].
  destruct st as [| | k]; cbn [at_stage] in Hst.
  - destruct Hst as (Ho & Hi & Hb & _). rewrite Ho, Hi, Hb. auto.
  - destruct Hst as (Ho & Hi & Hb & _). rewrite Ho, Hi, Hb. auto.
  - destruct Hst as (_ & _ & Ho & Hi & Hb & _). rewrite Ho, Hi, Hb.
    split; [right | now right].
    split; [reflexivity | split; [reflexivity |]].
    exists k. now rewrite item_rows_firstn.
Qed.

Lemma createOrder_writes_a_prefix_witness :
  no_pending (db (initial_world empty_store (fails_at 5))) /\
  (bill_number_seq (db (run (order_of (ItemsArray [tea; naan]))
                          (initial_world empty_store (fails_at 5))))
   = bill_number_seq (db (initial_world empty_store (fails_at 5)))
   \/ bill_number_seq (db (run (order_of (ItemsArray [tea; naan]))
                             (initial_world empty_store (fails_at 5))))
      = (bill_number_seq (db (initial_world empty_store (fails_at 5)))
         + 1)%N).
Proof.
  split; [left; reflexivity |].
  exact (proj2 (createOrder_writes_a_prefix
                  (order_of (ItemsArray [tea; naan]))
                  (initial_world empty_store (fails_at 5))
                  (or_introl eq_refl))).
Defined.

(** X9: whatever the store fails, createOrder lets no TypeError out: it
    returns having answered 200 or 500, or it throws the store's error and
    has answered nothing. *)
Theorem createOrder_answers_or_throws (p : payload) (w : world) :
  no_pending (db w) -> response w = None ->
  (fst (createOrder p w) = Returned tt
   /\ exists status b,
        response (run p w) = Some (status, b)
        /\ ((status = 200 /\ success b = true)
            \/ (status = 500 /\ b = OrderFailed "Error saving order")))
  \/ (fst (createOrder p w) = Thrown StoreError
      /\ response (run p w) = None).
Proof.
  intros Htx Hr. unfold run. destruct (createOrder p w) as [out w'] eqn:H.
  apply createOrder_effect in H; [| exact Htx].
  destruct H as (st & _ & _ & _ & [[-> Hres] | [[-> Hres] | (-> & _ & Hres)]]);
    cbn [fst snd].
  - right. split; [reflexivity | congruence].
  - left. split; [reflexivity |]. eexists _, _. split; [exact Hres |].
    right. now split.
  - left. split; [reflexivity |]. eexists _, _. split; [exact Hres |].
    left. now split.
Qed.

Lemma createOrder_answers_or_throws_witness :
  no_pending (db (initial_world empty_store (fails_at 5))) /\
  response (initial_world empty_store (fails_at 5)) = None /\
  ((fst (createOrder (order_of (ItemsArray [tea; naan]))
           (initial_world empty_store (fails_at 5))) = Returned tt
    /\ exists status b,
         response (run (order_of (ItemsArray [tea; naan]))
                     (initial_world empty_store (fails_at 5)))
         = Some (status, b)
         /\ ((status = 200 /\ success b = true)
             \/ (status = 500 /\ b = OrderFailed "Error saving order")))
   \/ (fst (createOrder (order_of (ItemsArray [tea; naan]))
              (initial_world empty_store (fails_at 5))) = Thrown StoreError
       /\ response (run (order_of (ItemsArray [tea; naan]))
                      (initial_world empty_store (fails_at 5))) = None)).
Proof.
  split; [left; reflexivity | split; [reflexivity |]].
  exact (createOrder_answers_or_throws (order_of (ItemsArray [tea; naan]))
           (initial_world empty_store (fails_at 5))
           (or_introl eq_refl) eq_refl).
Defined.

(** X10: whatever the store fails, an answer of 200 means that the row of
    [orders] and one row of [order_items] per item, in the order of the
    items, each with the order's id and with price times quantity as its
    total, are in the tables, and the answer carries the id, the bill
    number and the amounts of that row. *)
Theorem createOrder_200_means_saved (p : payload) (w : world) (b : body) :
  no_pending (db w) -> response w = None ->
  response (run p w) = Some (200, b) ->
  exists row rows,
    orders (db (run p w)) = orders (db w) ++ [row]
    /\ order_items (db (run p w)) = order_items (db w) ++ rows
    /\ b = OrderSaved (o_id row) (o_bill_number row) (o_subtotal row)
             (o_discount row) (o_gst row) (o_total_amount row)
    /\ Forall (fun r => oi_order_id r = o_id row) rows
    /\ map oi_item_name rows = map item_name (item_list (items p))
    /\ map oi_total rows
       = map (fun it => mul (price it) (quantity it)) (item_list (items p)).
Proof.
  intros Htx Hr H200. unfold run in *.
  destruct (createOrder p w) as [out w'] eqn:H.
  apply createOrder_effect in H; [| exact Htx].
  cbn [snd] in *.
  destruct H as (st & Hst & _ & _ & [[_ Hres] | [[_ Hres] | (_ & -> & Hres)]]);
    [congruence | congruence |].
  rewrite Hres in H200. inversion H200; subst b. clear H200.
  cbn [at_stage] in Hst. destruct Hst as (_ & _ & Ho & Hi & _).
  rewrite firstn_all in Hi.
  exists (saved_order p w),
    (item_rows (orders_id_seq (db w) + 1) (4 + clock w) (item_list (items p))).
  destruct (item_rows_fields (orders_id_seq (db w) + 1) (4 + clock w)
              (item_list (items p))) as (H1 & H2 & H3).
  repeat split; assumption.
Qed.

Lemma createOrder_200_means_saved_witness :
  no_pending (db opening) /\ response opening = None /\
  response (run (order_of (ItemsArray [tea; naan])) opening)
  = Some (200, OrderSaved 1 "BILL-000001" (of_Z 180) (of_Z 18)
                 (of_decimal false 2916 (-2)) (of_decimal false 19116 (-2)))
  /\ exists row rows,
       orders (db (run (order_of (ItemsArray [tea; naan])) opening))
       = orders (db opening) ++ [row]
       /\ order_items (db (run (order_of (ItemsArray [tea; naan])) opening))
          = order_items (db opening) ++ rows
       /\ OrderSaved 1 "BILL-000001" (of_Z 180) (of_Z 18)
            (of_decimal false 2916 (-2)) (of_decimal false 19116 (-2))
          = OrderSaved (o_id row) (o_bill_number row) (o_subtotal row)
              (o_discount row) (o_gst row) (o_total_amount row)
       /\ Forall (fun r => oi_order_id r = o_id row) rows
       /\ map oi_item_name rows
          = map item_name (item_list (items (order_of (ItemsArray [tea; naan]))))
       /\ map oi_total rows
          = map (fun it => mul (price it) (quantity it))
              (item_list (items (order_of (ItemsArray [tea; naan])))).
Proof.
  assert (H : response (run (order_of (ItemsArray [tea; naan])) opening)
              = Some (200, OrderSaved 1 "BILL-000001" (of_Z 180) (of_Z 18)
                             (of_decimal false 2916 (-2))
                             (of_decimal false 19116 (-2))))
    by (vm_compute; reflexivity).
  split; [left; reflexivity | split; [reflexivity | split; [exact H |]]].
  exact (createOrder_200_means_saved (order_of (ItemsArray [tea; naan]))
           opening _ (or_introl eq_refl) eq_refl H).
Defined.

(** ** What every request keeps true of the tables *)

(** X11: if the bill numbers in [orders] differ from one another and come
    from values the sequence has given out, they still do after a request,
    whatever its body holds and whatever the store fails. *)
Theorem createOrder_keeps_bills_distinct (p : payload) (w : world) :
  no_pending (db w) -> bills_from_sequence (db w) ->
  bills_from_sequence (db (run p w)) /\ no_pending (db (run p w)).
Proof.
  intros Htx [Hnd Hall]. unfold run.
  destruct (createOrder p w) as [out w'] eqn:H.
  apply createOrder_effect in H; [| exact Htx].
  destruct H as (st & Hst & Hp & _). cbn [snd]. split; [| exact Hp].
  unfold bills_from_sequence.
  destruct st as [| | k]; cbn [at_stage] in Hst.
  - destruct Hst as (Ho & _ & Hb & _). rewrite Ho, Hb. now split.
  - destruct Hst as (Ho & _ & Hb & _). rewrite Ho, Hb. split; [exact Hnd |].
    eapply Forall_impl; [| exact Hall].
    intros r (v & Hv & Hr). exists v. split; [lia | exact Hr].
  - destruct Hst as (_ & _ & Ho & _ & Hb & _). rewrite Ho, Hb. split.
    + rewrite map_app. cbn [map saved_order o_bill_number].
      apply NoDup_app; [exact Hnd | constructor; [tauto | constructor] |].
      intros bn Hin [Hnew | []]. subst bn.
      apply in_map_iff in Hin. destruct Hin as (r & Hr & Hin).
      rewrite Forall_forall in Hall. destruct (Hall r Hin) as (v & Hv & Hrv).
      rewrite Hrv in Hr. revert Hr. apply bill_number_differs. lia.
    + apply Forall_app. split.
      * eapply Forall_impl; [| exact Hall].
        intros r (v & Hv & Hr). exists v. split; [lia | exact Hr].
      * constructor; [| constructor].
        exists (bill_number_seq (db w) + 1)%N. split; [lia | reflexivity].
Qed.

Lemma empty_store_bills : bills_from_sequence (db opening).
Proof. split; constructor. Defined.

Lemma createOrder_keeps_bills_distinct_witness :
  no_pending (db opening) /\ bills_from_sequence (db opening) /\
  bills_from_sequence (db (run (order_of (ItemsArray [tea; naan])) opening))
  /\ no_pending (db (run (order_of (ItemsArray [tea; naan])) opening)).
Proof.
  split; [left; reflexivity | split; [exact empty_store_bills |]].
  exact (createOrder_keeps_bills_distinct (order_of (ItemsArray [tea; naan]))
           opening (or_introl eq_refl) empty_store_bills).
Defined.

(** X12: if the ids in [orders] differ from one another and none is above
    the last one given out, and every row of [order_items] belongs to a row
    of [orders], the same holds after a request, whatever its body holds
    and whatever the store fails: a request that fails half way leaves no
    item row without its order. *)
Theorem createOrder_keeps_items_with_orders (p : payload) (w : world) :
  no_pending (db w) ->
  ids_from_sequence (db w) -> items_reference_orders (db w) ->
  ids_from_sequence (db (run p w)) /\ items_reference_orders (db (run p w)).
Proof.
  intros Htx [Hnd Hall] Href. unfold run.
  destruct (createOrder p w) as [out w'] eqn:H.
  apply createOrder_effect in H; [| exact Htx].
  destruct H as (st & Hst & _). cbn [snd].
  unfold ids_from_sequence, items_reference_orders in *.
  destruct st as [| | k]; cbn [at_stage] in Hst.
  - destruct Hst as (Ho & Hi & _ & Hd). rewrite Ho, Hi, Hd. auto.
  - destruct Hst as (Ho & Hi & _ & Hd). rewrite Ho, Hi, Hd. auto.
  - destruct Hst as (_ & _ & Ho & Hi & _ & Hd). rewrite Ho, Hi, Hd.
    rewrite map_app. cbn [map saved_order o_id]. split; [split |].
    + apply NoDup_app; [exact Hnd | constructor; [tauto | constructor] |].
      intros id Hin [Hnew | []]. subst id.
      apply in_map_iff in Hin. destruct Hin as (r & Hr & Hin).
      rewrite Forall_forall in Hall. specialize (Hall r Hin). lia.
    + apply Forall_app. split.
      * eapply Forall_impl; [| exact Hall]. intros r Hr.
        cbn beta in Hr. lia.
      * constructor; [cbn; try rewrite Hd; lia | constructor].
    + apply Forall_app. split.
      * eapply Forall_impl; [| exact Href].
        intros r Hr. apply in_or_app. now left.
      * destruct (item_rows_fields (orders_id_seq (db w) + 1) (4 + clock w)
                    (firstn k (item_list (items p)))) as (_ & _ & Hids).
        eapply Forall_impl; [| exact Hids].
        intros r ->. apply in_or_app. right. now left.
Qed.

Lemma createOrder_keeps_items_with_orders_witness :
  no_pending (db (initial_world empty_store (fails_at 5))) /\
  ids_from_sequence (db (initial_world empty_store (fails_at 5))) /\
  items_reference_orders (db (initial_world empty_store (fails_at 5))) /\
  ids_from_sequence
    (db (run (order_of (ItemsArray [tea; naan]))
           (initial_world empty_store (fails_at 5))))
  /\ items_reference_orders
       (db (run (order_of (ItemsArray [tea; naan]))
              (initial_world empty_store (fails_at 5)))).
Proof.
  assert (H1 : ids_from_sequence (db (initial_world empty_store (fails_at 5))))
    by (split; constructor).
  assert (H2 : items_reference_orders
                 (db (initial_world empty_store (fails_at 5))))
    by constructor.
  split; [left; reflexivity | split; [exact H1 | split; [exact H2 |]]].
  exact (createOrder_keeps_items_with_orders
           (order_of (ItemsArray [tea; naan]))
           (initial_world empty_store (fails_at 5))
           (or_introl eq_refl) H1 H2).
Defined.

(** ** Which connection carries which statement *)

Section EmitsOnly.
Variable ok : event -> bool.

Lemma emits_ret {A} (a : A) : emits_only ok (ret a).
Proof. intro w. exists []. now rewrite app_nil_r. Qed.

Lemma emits_throw {A} (e : error) : emits_only ok (@throw A e).
Proof. intro w. exists []. now rewrite app_nil_r. Qed.

Lemma emits_bind {A B} (m : M A) (k : A -> M B) :
  emits_only ok m -> (forall a, emits_only ok (k a)) ->
  emits_only ok (bind m k).
Proof.
  intros Hm Hk w. unfold bind.
  destruct (Hm w) as (e1 & He1 & Hr1).
  destruct (m w) as [[a | e] w1]; cbn [snd] in *.
  - destruct (Hk a w1) as (e2 & He2 & Hr2).
    exists (e1 ++ e2). rewrite He2, He1, app_assoc, forallb_app, Hr1, Hr2.
    now split.
  - exists e1. now split.
Qed.

Lemma emits_store_call {A} (ev : bool -> event)
  (run : nat -> store -> A * store) :
  (forall b, ok (ev b) = true) -> emits_only ok (store_call ev run).
Proof.
  intros Hev w. unfold store_call.
  destruct (faults w (clock w)).
  - exists [ev false]. cbn. now rewrite Hev.
  - destruct (run (clock w) (db w)) as [a s'].
    exists [ev true]. cbn. now rewrite Hev.
Qed.

Lemma emits_for_each {A} (l : list A) (f : A -> M unit) :
  (forall x, emits_only ok (f x)) -> emits_only ok (for_each l f).
Proof.
  intro Hf. induction l as [| x rest IH]; cbn [for_each].
  - apply emits_ret.
  - apply emits_bind; [apply Hf | intros _; exact IH].
Qed.

Lemma emits_try {A} (body : M A) (handler : error -> M A) (final : M unit) :
  emits_only ok body -> (forall e, emits_only ok (handler e)) ->
  emits_only ok final ->
  emits_only ok (try_catch_finally body handler final).
Proof.
  intros Hb Hh Hf w. unfold try_catch_finally.
  destruct (Hb w) as (e1 & He1 & Hr1).
  destruct (body w) as [[a | e] w1]; cbn [snd] in *.
  - destruct (Hf w1) as (e3 & He3 & Hr3).
    destruct (final w1) as [[u | e'] w3]; cbn [snd] in *;
      exists (e1 ++ e3); rewrite He3, He1, app_assoc, forallb_app, Hr1, Hr3;
      now split.
  - destruct (Hh e w1) as (e2 & He2 & Hr2).
    destruct (handler e w1) as [r2 w2]; cbn [snd] in *.
    destruct (Hf w2) as (e3 & He3 & Hr3).
    destruct (final w2) as [[u | e'] w3]; cbn [snd] in *;
      exists (e1 ++ e2 ++ e3);
      rewrite He3, He2, He1, !forallb_app, Hr1, Hr2, Hr3, !app_assoc;
      now split.
Qed.

End EmitsOnly.

(** X13: in every run, whatever the store fails, the connection checked
    out for the request carries BEGIN, COMMIT and ROLLBACK and nothing
    else, and every other statement (the bill number and all inserts) goes
    through the pool. *)
Theorem createOrder_statements_by_connection (p : payload) (w : world) :
  exists ext,
    trace (run p w) = trace w ++ ext
    /\ forallb tx_on_client_only ext = true.
Proof.
  assert (Hq : forall c q, tx_on_client_only (EvQuery c q true) = true ->
                 tx_on_client_only (EvQuery c q false) = true ->
                 emits_only tx_on_client_only (query c q)).
  { intros c q H1 H2. apply emits_store_call. now intros []. }
  assert (Hins : forall id x, emits_only tx_on_client_only (insert_item id x)).
  { intros id x. apply emits_bind; [| intros _; apply emits_ret].
    now apply Hq. }
  assert (Hchr : forall id x, emits_only tx_on_client_only (insert_char id x)).
  { intros id x. apply emits_bind; [| intros _; apply emits_ret].
    now apply Hq. }
  unfold run, createOrder, bind at 1, db_connect.
  destruct (faults w (clock w)) eqn:F.
  { rewrite store_call_fails by exact F. cbn. now exists [EvConnect false]. }
  rewrite store_call_answers by exact F. cbn [fst snd].
  match goal with
  | |- context [try_catch_finally ?b ?h ?f ?w0] =>
      assert (He : emits_only tx_on_client_only (try_catch_finally b h f))
  end.
  { apply emits_try.
    - apply emits_bind; [now apply Hq | intros _].
      apply emits_bind.
      { unfold reduce. destruct (items p);
          (apply emits_ret || apply emits_throw). }
      intro subtotal. cbn zeta.
      apply emits_bind; [now apply Hq | intros billRows].
      destruct billRows; try apply emits_throw.
      apply emits_bind; [now apply Hq | intros orderResult].
      destruct orderResult; try apply emits_throw.
      apply emits_bind.
      { unfold for_of. destruct (items p); try apply emits_throw;
          apply emits_for_each; intro x; [apply Hchr | apply Hins]. }
      intros _. apply emits_bind; [now apply Hq | intros _].
      intro w0. now exists [EvRespond 200].
    - intros e. apply emits_bind; [now apply Hq | intros _].
      apply emits_bind; [intro w0; now exists [EvLog] | intros _].
      intro w0. now exists [EvRespond 500].
    - intro w0. now exists [EvRelease]. }
  match goal with
  | |- context [try_catch_finally ?b ?h ?f ?w0] =>
      destruct (He w0) as (ext & Hext & Hok)
  end.
  exists (EvConnect true :: ext). rewrite Hext. cbn [trace emit tick].
  rewrite <- app_assoc. split; [reflexivity | exact Hok].
Qed.

(** ** Requests one after the other *)

(** X14: a request served by a store that answers leaves it ready for the
    next one, and two such requests in a row get the next two ids and the
    next two bill numbers, which differ, their rows standing in [orders]
    in the order of the requests. *)
Theorem createOrder_twice (p1 p2 : payload) (e1 e2 : list item) (w : world) :
  items p1 = ItemsArray e1 -> items p2 = ItemsArray e2 -> healthy w ->
  healthy (run p1 w)
  /\ map o_id (orders (db (run p2 (run p1 w))))
     = map o_id (orders (db w))
       ++ [(orders_id_seq (db w) + 1)%N; (orders_id_seq (db w) + 2)%N]
  /\ map o_bill_number (orders (db (run p2 (run p1 w))))
     = map o_bill_number (orders (db w))
       ++ [bill_number (bill_number_seq (db w) + 1);
           bill_number (bill_number_seq (db w) + 2)]
  /\ bill_number (bill_number_seq (db w) + 1)
     <> bill_number (bill_number_seq (db w) + 2)
  /\ List.length (order_items (db (run p2 (run p1 w))))
     = (List.length (order_items (db w)) + List.length e1
        + List.length e2)%nat.
Proof.
  intros H1 H2 Hw.
  assert (Hw1 : healthy (run p1 w)).
  { unfold run. rewrite (createOrder_answers p1 e1 w H1 Hw).
    destruct Hw as [Hf Htx]. split; [exact Hf | reflexivity]. }
  split; [exact Hw1 |].
  assert (Hlen : forall id t l, List.length (item_rows id t l) = List.length l).
  { intros id t l. revert t. induction l as [| x l IH]; intro t; cbn;
      [reflexivity | now rewrite IH]. }
  unfold run at 1 3 5.
  rewrite (createOrder_answers p2 e2 (run p1 w) H2 Hw1).
  cbn [snd db orders order_items].
  unfold run. rewrite (createOrder_answers p1 e1 w H1 Hw).
  cbn [snd db orders order_items bill_number_seq orders_id_seq].
  rewrite !map_app, !length_app, !Hlen. cbn [map o_id o_bill_number].
  rewrite <- !app_assoc. cbn [app].
  replace (orders_id_seq (db w) + 1 + 1)%N
    with (orders_id_seq (db w) + 2)%N by lia.
  replace (bill_number_seq (db w) + 1 + 1)%N
    with (bill_number_seq (db w) + 2)%N by lia.
  repeat split. apply bill_number_differs. lia.
Qed.

Lemma createOrder_twice_witness :
  items (order_of (ItemsArray [tea])) = ItemsArray [tea] /\
  items (order_of (ItemsArray [tea; naan])) = ItemsArray [tea; naan] /\
  healthy opening /\
  healthy (run (order_of (ItemsArray [tea])) opening)
  /\ map o_id (orders (db (run (order_of (ItemsArray [tea; naan]))
                             (run (order_of (ItemsArray [tea])) opening))))
     = map o_id (orders (db opening))
       ++ [(orders_id_seq (db opening) + 1)%N;
           (orders_id_seq (db opening) + 2)%N].
Proof.
  split; [reflexivity | split; [reflexivity | split; [exact opening_healthy |]]].
  pose proof (createOrder_twice (order_of (ItemsArray [tea]))
                (order_of (ItemsArray [tea; naan])) [tea] [tea; naan]
                opening eq_refl eq_refl opening_healthy) as H.
  exact (conj (proj1 H) (proj1 (proj2 H))).
Defined.

(** X15: when the checkout of the connection fails, createOrder throws
    the store's error at once: it sends no statement, answers nothing,
    releases nothing and leaves the store as it was. *)
Theorem createOrder_connect_fails (p : payload) (w : world) :
  faults w (clock w) = true ->
  fst (createOrder p w) = Thrown StoreError
  /\ trace (run p w) = trace w ++ [EvConnect false]
  /\ response (run p w) = response w
  /\ db (run p w) = db w.
Proof.
  intro F. unfold run, createOrder, bind, db_connect.
  rewrite store_call_fails by exact F. cbn. repeat split.
Qed.

Lemma createOrder_connect_fails_witness :
  faults (initial_world empty_store (fails_at 0))
    (clock (initial_world empty_store (fails_at 0))) = true /\
  fst (createOrder (order_of (ItemsArray [tea]))
         (initial_world empty_store (fails_at 0))) = Thrown StoreError.
Proof.
  split; [reflexivity |].
  exact (proj1 (createOrder_connect_fails (order_of (ItemsArray [tea]))
                  (initial_world empty_store (fails_at 0)) eq_refl)).
Defined.

(* ================================================================== *)
(** * Facts about the dashboard aggregator *)
(* ================================================================== *)

Import Dashboard.
Local Open Scope Z_scope.

(** ** Grouping *)

Section AggregationFacts.
Context {R K A : Type}.
Variable K_dec : forall x y : K, {x = y} + {x <> y}.
Variable key : R -> K.
Variable init : A.
Variable step : R -> A -> A.

Lemma add_to_group_In (r : R) (g : list (K * A)) (k : K) (a : A) :
  NoDup (map fst g) ->
  In (k, a) (add_to_group K_dec key init step r g) ->
  (k <> key r /\ In (k, a) g)
  \/ (k = key r /\
      ((exists a0, In (k, a0) g /\ a = step r a0)
       \/ (~ In k (map fst g) /\ a = step r init))).
Proof.
  induction g as [| [k0 a0] rest IH]; intros Hnd Hin; cbn in *.
  - destruct Hin as [Hin | []]. inversion Hin; subst.
    right. split; [reflexivity | right; split; [tauto | reflexivity]].
  - inversion Hnd as [| ? ? Hnotin Hnd']; subst.
    destruct (K_dec k0 (key r)) as [Heq | Hne].
    + destruct Hin as [Hin | Hin].
      * inversion Hin; subst. right. split; [reflexivity |].
        left. exists a0. split; [now left | reflexivity].
      * left. split; [| now right].
        intro Hk. subst. apply Hnotin.
        change (key r) with (fst (key r, a)). now apply in_map.
    + destruct Hin as [Hin | Hin].
      * inversion Hin; subst. left. split; [exact Hne | now left].
      * destruct (IH Hnd' Hin) as [[Hk Hi] | [Hk [(a1 & Hi & Ha) | [Hi Ha]]]].
        -- left. split; [exact Hk | now right].
        -- right. split; [exact Hk |]. left. exists a1. split; [now right | exact Ha].
        -- right. split; [exact Hk |]. right. split; [| exact Ha].
           intros [Hk0 | Hk0]; [congruence | contradiction].
Qed.

Lemma add_to_group_keys (r : R) (g : list (K * A)) (k : K) :
  In k (map fst (add_to_group K_dec key init step r g))
  <-> k = key r \/ In k (map fst g).
Proof.
  induction g as [| [k0 a0] rest IH]; cbn.
  - intuition congruence.
  - destruct (K_dec k0 (key r)) as [Heq | Hne]; cbn.
    + intuition congruence.
    + rewrite IH. tauto.
Qed.

Lemma add_to_group_NoDup (r : R) (g : list (K * A)) :
  NoDup (map fst g) ->
  NoDup (map fst (add_to_group K_dec key init step r g)).
Proof.
  induction g as [| [k0 a0] rest IH]; intro Hnd; cbn.
  - constructor; [tauto | constructor].
  - inversion Hnd as [| ? ? Hnotin Hnd']; subst.
    destruct (K_dec k0 (key r)) as [Heq | Hne]; cbn.
    + constructor; assumption.
    + constructor; [| now apply IH].
      rewrite add_to_group_keys. intros [H | H]; [congruence | contradiction].
Qed.

Lemma group_by_NoDup (rows : list R) :
  NoDup (map fst (group_by K_dec key init step rows)).
Proof.
  induction rows as [| r rest IH]; cbn; [constructor |].
  now apply add_to_group_NoDup.
Qed.

Lemma group_by_keys (rows : list R) (k : K) :
  In k (map fst (group_by K_dec key init step rows))
  <-> exists r, In r rows /\ key r = k.
Proof.
  induction rows as [| r rest IH]; cbn.
  - split; [tauto | intros (r & [] & _)].
  - rewrite add_to_group_keys, IH. split.
    + intros [H | (r' & Hi & Hk)]; [exists r; auto | exists r'; auto].
    + intros (r' & [Hi | Hi] & Hk); [left; congruence | right; exists r'; auto].
Qed.

(** Every group holds the aggregate of its rows, and has some. *)
Lemma group_by_In (rows : list R) (k : K) (a : A) :
  In (k, a) (group_by K_dec key init step rows) ->
  a = fold_right step init (group_rows K_dec key k rows)
  /\ group_rows K_dec key k rows <> [].
Proof.
  revert a. induction rows as [| r rest IH]; intros a Hin; cbn in Hin.
  - contradiction.
  - apply add_to_group_In in Hin; [| apply group_by_NoDup].
    unfold group_rows in *. cbn [filter].
    destruct Hin as [[Hk Hi] | [Hk [(a0 & Hi & Ha) | [Hi Ha]]]].
    + destruct (K_dec k (key r)) as [E | _]; [contradiction | now apply IH].
    + destruct (K_dec k (key r)) as [_ | N]; [| contradiction].
      cbn. split; [| discriminate].
      rewrite Ha. f_equal. now apply IH.
    + destruct (K_dec k (key r)) as [_ | N]; [| contradiction].
      cbn. split; [| discriminate].
      rewrite Ha. f_equal.
      destruct (filter _ rest) as [| r' l'] eqn:Ef; [reflexivity |].
      exfalso. apply Hi. apply group_by_keys.
      assert (Hr' : In r' (filter (fun r0 => if K_dec k (key r0) then true else false) rest))
        by (rewrite Ef; now left).
      apply filter_In in Hr'. destruct Hr' as [Hr' Hk'].
      exists r'. split; [exact Hr' |].
      destruct (K_dec k (key r')); [congruence | discriminate].
Qed.

End AggregationFacts.

(** ** Ordering *)

Section OrderingFacts.
Context {T : Type}.
Variable before : T -> T -> bool.
Hypothesis before_total : forall x y, before x y = false -> before y x = true.
Hypothesis before_trans :
  forall x y z, before x y = true -> before y z = true -> before x z = true.

Lemma insert_by_In (x y : T) (l : list T) :
  In y (insert_by before x l) <-> y = x \/ In y l.
Proof.
  induction l as [| z rest IH]; cbn.
  - intuition congruence.
  - destruct (before x z); cbn; [intuition congruence | rewrite IH; tauto].
Qed.

Lemma order_by_In (y : T) (l : list T) :
  In y (order_by before l) <-> In y l.
Proof.
  induction l as [| x rest IH]; cbn; [tauto |].
  rewrite insert_by_In, IH. intuition congruence.
Qed.

Lemma insert_by_sorted (x : T) (l : list T) :
  StronglySorted (fun a b => before a b = true) l ->
  StronglySorted (fun a b => before a b = true) (insert_by before x l).
Proof.
  induction l as [| z rest IH]; intro Hs; cbn.
  - constructor; constructor.
  - inversion Hs as [| ? ? Hs' Hall]; subst.
    destruct (before x z) eqn:E.
    + constructor; [exact Hs |]. constructor; [exact E |].
      eapply Forall_impl; [| exact Hall]. intros a Ha. now apply before_trans with z.
    + constructor; [now apply IH |].
      apply Forall_forall. intros a Ha. apply insert_by_In in Ha.
      destruct Ha as [-> | Ha]; [now apply before_total |].
      rewrite Forall_forall in Hall. now apply Hall.
Qed.

Lemma order_by_sorted (l : list T) :
  StronglySorted (fun a b => before a b = true) (order_by before l).
Proof.
  induction l as [| x rest IH]; cbn; [constructor | now apply insert_by_sorted].
Qed.

End OrderingFacts.

Lemma StronglySorted_firstn {T} (R : T -> T -> Prop) (n : nat) (l : list T) :
  StronglySorted R l -> StronglySorted R (firstn n l).
Proof.
  revert l. induction n as [| n IH]; intros l Hs; cbn; [constructor |].
  destruct l as [| x rest]; [constructor |].
  inversion Hs as [| ? ? Hs' Hall]; subst.
  constructor; [now apply IH |].
  apply Forall_forall. intros a Ha. rewrite Forall_forall in Hall.
  apply Hall. revert Ha. clear. revert rest.
  induction n as [| n IH]; intros rest Ha; cbn in Ha; [contradiction |].
  destruct rest as [| y rest]; [contradiction |].
  destruct Ha as [-> | Ha]; [now left | right; now apply IH].
Qed.

Lemma StronglySorted_weaken {T} (R S : T -> T -> Prop) (l : list T) :
  (forall a b, R a b -> S a b) -> StronglySorted R l -> StronglySorted S l.
Proof.
  intros HRS Hs. induction Hs as [| x rest Hs IH Hall]; constructor; auto.
  eapply Forall_impl; [| exact Hall]. intros a. apply HRS.
Qed.

Lemma firstn_incl {T} (n : nat) (l : list T) (x : T) :
  In x (firstn n l) -> In x l.
Proof.
  revert l. induction n as [| n IH]; intros l H; cbn in H; [contradiction |].
  destruct l as [| y rest]; [contradiction |].
  destruct H as [-> | H]; [now left | right; now apply IH].
Qed.

(** ** The pending customers *)

Lemma fold_count_and_sum {R} (amount : R -> Z) (l : list R) :
  fold_right (count_and_sum amount) (0, 0) l
  = (Z.of_nat (List.length l), fold_right Z.add 0 (map amount l)).
Proof.
  induction l as [| r rest IH]; [reflexivity |].
  cbn [fold_right List.length map]. rewrite IH. unfold count_and_sum.
  cbn [fst snd]. f_equal; lia.
Qed.

Lemma is_pending_iff (o : order) :
  is_pending o = true <-> ord_payment_status o = Some "Pending"%string.
Proof.
  unfold is_pending. destruct (ord_payment_status o) as [s |].
  - rewrite String.eqb_eq. split; congruence.
  - split; discriminate.
Qed.

Lemma pending_orders_are_pending (db : database) (name phone : option string) :
  Forall (fun o => In o (tbl_orders db)
                   /\ ord_payment_status o = Some "Pending"%string
                   /\ ord_customer_name o = name
                   /\ ord_customer_phone o = phone)
    (pending_orders_of db name phone).
Proof.
  apply Forall_forall. intros o Ho.
  unfold pending_orders_of, group_rows in Ho.
  apply filter_In in Ho. destruct Ho as [Ho Hk].
  apply filter_In in Ho. destruct Ho as [Ho Hp].
  split; [exact Ho | split; [now apply is_pending_iff |]].
  destruct (customer_dec (name, phone) (customer_of o)) as [E | N];
    [| discriminate].
  unfold customer_of in E. now inversion E.
Qed.

(** C7: topPendingCustomers returns at most five rows, in descending order
    of total_pending_amount, and each row counts and sums orders of that
    customer whose payment_status is "Pending", of which there is one at
    least, and no other order. *)
Theorem topPendingCustomers_spec (db : database) :
  let rows := rows_of (topPendingCustomers db) in
  (List.length rows <= 5)%nat
  /\ StronglySorted
       (fun a b => total_pending_amount b <= total_pending_amount a) rows
  /\ forall r, In r rows ->
       let mine := pending_orders_of db (customer_name r) (customer_phone r) in
       mine <> []
       /\ Forall (fun o => ord_payment_status o = Some "Pending"%string) mine
       /\ pending_bills_count r = Z.of_nat (List.length mine)
       /\ total_pending_amount r = sum_amounts mine.
Proof.
  unfold topPendingCustomers, db_query_plain, reply.
  destruct (online db); cbn [rows_of].
  2: { split; [cbn; lia | split; [constructor | intros r []]]. }
  unfold top_pending_rows. split; [apply firstn_le_length | split].
  - apply StronglySorted_firstn.
    apply StronglySorted_weaken
      with (R := fun a b =>
                   (total_pending_amount b <=? total_pending_amount a) = true).
    + intros a b H. now apply Z.leb_le.
    + apply order_by_sorted.
      * intros x y H. apply Z.leb_le. apply Z.leb_gt in H. lia.
      * intros x y z H1 H2. apply Z.leb_le. apply Z.leb_le in H1, H2. lia.
  - intros r Hr. apply firstn_incl in Hr. apply order_by_In in Hr.
    apply in_map_iff in Hr. destruct Hr as ([[name phone] [cnt total]] & Hr & Hg).
    subst r. cbn [customer_name customer_phone pending_bills_count
                  total_pending_amount fst snd].
    apply group_by_In in Hg. destruct Hg as [Ha Hne].
    rewrite fold_count_and_sum in Ha. inversion Ha; subst.
    split; [exact Hne | split; [| split; reflexivity]].
    eapply Forall_impl; [| apply pending_orders_are_pending].
    intros o Ho. apply Ho.
Qed.

(** ** Date bounds *)

Lemma join_items_fst (db : database) (j : order * order_item) :
  In j (join_items db) -> In (fst j) (tbl_orders db).
Proof.
  unfold join_items. rewrite in_flat_map. intros (o & Ho & Hj).
  apply in_map_iff in Hj. destruct Hj as (oi & <- & _). exact Ho.
Qed.

Lemma in_range_unbounded (o : order) : in_range None None o = true.
Proof. reflexivity. Qed.

Lemma in_range_covering (ds de : date) (o : order) :
  midnight ds <= ord_created_at o <= midnight de ->
  in_range (Some ds) (Some de) o = true.
Proof.
  intros [H1 H2]. unfold in_range.
  apply andb_true_iff. split; now apply Z.leb_le.
Qed.

(** An order of the start day is within the bound at any time of the day;
    an order of the end day is within it at midnight only. *)
Lemma in_range_start_day (d : date) (o : order) :
  DATE (ord_created_at o) = d -> in_range (Some d) None o = true.
Proof.
  unfold in_range, DATE, midnight. intros <-. rewrite andb_true_r.
  apply Z.leb_le. pose proof (Z.mul_div_le (ord_created_at o) 86400). lia.
Qed.

Lemma in_range_end_day (d : date) (o : order) :
  DATE (ord_created_at o) = d ->
  (in_range None (Some d) o = true <-> ord_created_at o = midnight d).
Proof.
  unfold in_range, DATE, midnight. intros <-. cbn [andb].
  rewrite Z.leb_le.
  pose proof (Z.mul_div_le (ord_created_at o) 86400).
  lia.
Qed.

Section HandlerFacts.
Variable date_in : string -> option date.

Lemma rows_covering (db : database) (ds de : date) :
  (forall o, In o (tbl_orders db) ->
             midnight ds <= ord_created_at o <= midnight de) ->
  sales_by_item_rows db (Some ds) (Some de) = sales_by_item_rows db None None
  /\ daily_sales_rows db (Some ds) (Some de) = daily_sales_rows db None None
  /\ payment_status_rows db (Some ds) (Some de)
     = payment_status_rows db None None.
Proof.
  intro Hall.
  assert (Ho : filter (in_range (Some ds) (Some de)) (tbl_orders db)
               = filter (in_range None None) (tbl_orders db)).
  { apply filter_ext_in. intros o Ho.
    rewrite in_range_covering by now apply Hall. reflexivity. }
  assert (Hj : filter (fun j => in_range (Some ds) (Some de) (fst j))
                 (join_items db)
               = filter (fun j => in_range None None (fst j)) (join_items db)).
  { apply filter_ext_in. intros j Hj.
    rewrite in_range_covering by (apply Hall; now apply join_items_fst).
    reflexivity. }
  unfold sales_by_item_rows, daily_sales_rows, payment_status_rows.
  rewrite Ho, Hj. repeat split.
Qed.

(** With both dates absent, each aggregate returns the rows it returns
    for explicit bounds between whose midnights every order was created:
    the bounds the WHERE clause itself lets every order through. *)
Theorem no_bounds_is_all_time (db : database) (s e : string) (ds de : date) :
  date_in s = Some ds -> date_in e = Some de ->
  (forall o, In o (tbl_orders db) ->
             midnight ds <= ord_created_at o <= midnight de) ->
  salesByItem date_in db QUndefined QUndefined
  = salesByItem date_in db (QString s) (QString e)
  /\ dailySales date_in db QUndefined QUndefined
     = dailySales date_in db (QString s) (QString e)
  /\ paymentStatusDistribution date_in db QUndefined QUndefined
     = paymentStatusDistribution date_in db (QString s) (QString e).
Proof.
  intros Hs He Hall.
  destruct (rows_covering db ds de Hall) as (H1 & H2 & H3).
  unfold salesByItem, dailySales, paymentStatusDistribution, db_query_dates.
  cbn [parseParam bind_date]. rewrite Hs, He, H1, H2, H3. repeat split.
Qed.

(** C10: parseParam turns undefined, and nothing else, into null and
    hands every other value on as it is, the empty string too; as the
    store does not read the empty string as a date, a request with an
    empty startDate or endDate is answered 500. *)
Theorem parseParam_only_undefined :
  parseParam QUndefined = None
  /\ (forall v, v <> QUndefined -> parseParam v = Some v)
  /\ parseParam (QString "") = Some (QString "")
  /\ (date_in ""%string = None ->
      forall (db : database) (other : query_value),
        salesByItem date_in db (QString "") other
        = Status500 "Internal server error"
        /\ salesByItem date_in db other (QString "")
           = Status500 "Internal server error"
        /\ dailySales date_in db (QString "") other
           = Status500 "Internal server error"
        /\ dailySales date_in db other (QString "")
           = Status500 "Internal server error"
        /\ paymentStatusDistribution date_in db (QString "") other
           = Status500 "Internal server error"
        /\ paymentStatusDistribution date_in db other (QString "")
           = Status500 "Internal server error").
Proof.
  split; [reflexivity | split; [| split; [reflexivity |]]].
  - intros v Hv. destruct v; [contradiction | reflexivity ..].
  - intros Hempty db other.
    unfold salesByItem, dailySales, paymentStatusDistribution, db_query_dates.
    cbn [parseParam bind_date]. rewrite Hempty.
    destruct (online db); [| repeat split].
    destruct (bind_date date_in (parseParam other)); repeat split.
Qed.

End HandlerFacts.

Lemma no_bounds_is_all_time_witness :
  iso_date_in "2024-01-01" = Some 19723 /\
  iso_date_in "2024-12-31" = Some 20088 /\
  (forall o, In o (tbl_orders one_lunch) ->
             midnight 19723 <= ord_created_at o <= midnight 20088) /\
  salesByItem iso_date_in one_lunch QUndefined QUndefined
  = salesByItem iso_date_in one_lunch (QString "2024-01-01")
      (QString "2024-12-31")
  /\ dailySales iso_date_in one_lunch QUndefined QUndefined
     = dailySales iso_date_in one_lunch (QString "2024-01-01")
         (QString "2024-12-31")
  /\ paymentStatusDistribution iso_date_in one_lunch QUndefined QUndefined
     = paymentStatusDistribution iso_date_in one_lunch (QString "2024-01-01")
         (QString "2024-12-31").
Proof.
  assert (H : forall o, In o (tbl_orders one_lunch) ->
                        midnight 19723 <= ord_created_at o <= midnight 20088).
  { intros o [<- | []]. vm_compute. split; discriminate. }
  split; [reflexivity | split; [reflexivity | split; [exact H |]]].
  exact (no_bounds_is_all_time iso_date_in one_lunch "2024-01-01" "2024-12-31"
           19723 20088 eq_refl eq_refl H).
Defined.

Lemma parseParam_only_undefined_witness :
  iso_date_in "" = None /\
  salesByItem iso_date_in one_lunch (QString "") QUndefined
  = Status500 "Internal server error".
Proof.
  split; [reflexivity |].
  exact (proj1 (proj2 (proj2 (proj2 (parseParam_only_undefined iso_date_in)))
                  eq_refl one_lunch QUndefined)).
Defined.

(** C4 fails on the code for the end date: the bound is the midnight that
    begins the end day, so an order taken at ten in the morning of
    2024-01-15 is left out of all three aggregates when endDate is
    2024-01-15, while a startDate of that day keeps it in. *)
Theorem end_date_leaves_out_the_day :
  iso_date_in "2024-01-15" = Some (DATE (ord_created_at lunch))
  /\ dailySales iso_date_in one_lunch QUndefined (QString "2024-01-15")
     = Json []
  /\ salesByItem iso_date_in one_lunch QUndefined (QString "2024-01-15")
     = Json []
  /\ paymentStatusDistribution iso_date_in one_lunch QUndefined
       (QString "2024-01-15")
     = Json []
  /\ dailySales iso_date_in one_lunch (QString "2024-01-15") QUndefined
     = Json [{| day := 19737; day_total_sales := 10620 |}]
  /\ salesByItem iso_date_in one_lunch (QString "2024-01-15") QUndefined
     = Json [{| item_name := Some "Tea"%string; total_sales := 10000 |}].
Proof. vm_compute. repeat split. Qed.

(** C6 fails on the code: 2024-01-01 and 2024-01-15 are dates that cover
    the day of every order of the table, and yet with them dailySales,
    paymentStatusDistribution and salesByItem answer with no row, where
    they answer with one row when both dates are absent; the order of ten
    in the morning of the end day is past the midnight the end bound is
    taken as. *)
Theorem day_bounds_differ_from_no_bounds :
  iso_date_in "2024-01-01" = Some 19723
  /\ iso_date_in "2024-01-15" = Some 19737
  /\ (forall o, In o (tbl_orders one_lunch) ->
        19723 <= DATE (ord_created_at o) <= 19737)
  /\ dailySales iso_date_in one_lunch QUndefined QUndefined
     = Json [{| day := 19737; day_total_sales := 10620 |}]
  /\ dailySales iso_date_in one_lunch (QString "2024-01-01")
       (QString "2024-01-15")
     = Json []
  /\ paymentStatusDistribution iso_date_in one_lunch QUndefined QUndefined
     = Json [{| payment_status := Some "Pending"%string; count_orders := 1;
                total_amount := 10620 |}]
  /\ paymentStatusDistribution iso_date_in one_lunch (QString "2024-01-01")
       (QString "2024-01-15")
     = Json []
  /\ salesByItem iso_date_in one_lunch QUndefined QUndefined
     = Json [{| item_name := Some "Tea"%string; total_sales := 10000 |}]
  /\ salesByItem iso_date_in one_lunch (QString "2024-01-01")
       (QString "2024-01-15")
     = Json [].
Proof.
  split; [reflexivity | split; [reflexivity | split]].
  - intros o [<- | []]. vm_compute. split; discriminate.
  - vm_compute. repeat split.
Qed.

(* ================================================================== *)
(** * Further facts about the dashboard aggregator *)
(* ================================================================== *)

(** ** Grouping keeps what it groups *)

Section GroupingMeasure.
Context {R K A : Type}.
Variable K_dec : forall x y : K, {x = y} + {x <> y}.
Variable key : R -> K.
Variable init : A.
Variable step : R -> A -> A.

(** A measure of the aggregate that every row adds its share to. *)
Variable measure : A -> Z.
Variable share : R -> Z.
Hypothesis measure_init : measure init = 0.
Hypothesis measure_step : forall r a, measure (step r a) = measure a + share r.

Lemma add_to_group_measure (r : R) (g : list (K * A)) :
  sum_Z (map (fun ka => measure (snd ka))
           (add_to_group K_dec key init step r g))
  = sum_Z (map (fun ka => measure (snd ka)) g) + share r.
Proof.
  induction g as [| [k a] rest IH]; cbn.
  - rewrite measure_step, measure_init. lia.
  - destruct (K_dec k (key r)); cbn.
    + rewrite measure_step. unfold sum_Z. lia.
    + unfold sum_Z in *. rewrite IH. lia.
Qed.

Lemma group_by_measure (rows : list R) :
  sum_Z (map (fun ka => measure (snd ka)) (group_by K_dec key init step rows))
  = sum_Z (map share rows).
Proof.
  induction rows as [| r rest IH]; cbn; [reflexivity |].
  rewrite add_to_group_measure, IH. unfold sum_Z. lia.
Qed.

End GroupingMeasure.

Lemma fold_right_add {R} (f : R -> Z) (l : list R) :
  fold_right (fun r acc => acc + f r) 0 l = sum_Z (map f l).
Proof.
  induction l as [| r rest IH]; cbn; [reflexivity |].
  rewrite IH. unfold sum_Z. lia.
Qed.

(** ** Ordering keeps what it orders *)

Lemma insert_by_perm {T} (before : T -> T -> bool) (x : T) (l : list T) :
  Permutation (insert_by before x l) (x :: l).
Proof.
  induction l as [| y rest IH]; cbn; [reflexivity |].
  destruct (before x y); [reflexivity |].
  rewrite IH. apply perm_swap.
Qed.

Lemma order_by_perm {T} (before : T -> T -> bool) (l : list T) :
  Permutation (order_by before l) l.
Proof.
  induction l as [| x rest IH]; cbn; [reflexivity |].
  rewrite insert_by_perm. now apply perm_skip.
Qed.

Lemma StronglySorted_app_inv {T} (R : T -> T -> Prop) (a b : list T) :
  StronglySorted R (a ++ b) ->
  forall x y, In x a -> In y b -> R x y.
Proof.
  induction a as [| z a IH]; intros Hs x y Hx Hy; [contradiction |].
  cbn in Hs. inversion Hs as [| ? ? Hs' Hall]; subst.
  destruct Hx as [-> | Hx].
  - rewrite Forall_forall in Hall. apply Hall. apply in_or_app. now right.
  - now apply IH.
Qed.

Lemma StronglySorted_strict {T} (f : T -> Z) (l : list T) :
  StronglySorted (fun a b => f a <= f b) l -> NoDup (map f l) ->
  StronglySorted (fun a b => f a < f b) l.
Proof.
  induction l as [| x rest IH]; intros Hs Hnd; [constructor |].
  inversion Hs as [| ? ? Hs' Hall]; subst.
  cbn in Hnd. inversion Hnd as [| ? ? Hnotin Hnd']; subst.
  constructor; [now apply IH |].
  apply Forall_forall. intros y Hy. rewrite Forall_forall in Hall.
  specialize (Hall y Hy).
  assert (f x <> f y) by (intro E; apply Hnotin; rewrite E; now apply in_map).
  lia.
Qed.

(** ** What the date-filtered queries return *)

Lemma in_range_days (s e : option date) (o : order) :
  in_range s e o = true ->
  (forall d, s = Some d -> d <= DATE (ord_created_at o))
  /\ (forall d, e = Some d -> DATE (ord_created_at o) <= d).
Proof.
  unfold in_range, DATE, midnight. intro H. apply andb_true_iff in H.
  destruct H as [H1 H2]. split; intros d ->.
  - apply Z.leb_le in H1. apply Z.div_le_lower_bound; lia.
  - apply Z.leb_le in H2. apply Z.div_le_upper_bound; lia.
Qed.

Lemma in_range_inverted (ds de : date) (o : order) :
  de < ds -> in_range (Some ds) (Some de) o = false.
Proof.
  intro H. unfold in_range, midnight. apply andb_false_iff.
  destruct (Z.leb_spec (ds * 86400) (ord_created_at o)); [right | now left].
  apply Z.leb_gt. lia.
Qed.

Section QueryFacts.
Variable date_in : string -> option date.

Lemma reply_rows {Row} (db : database)
  (query : option date -> option date -> list Row)
  (p1 p2 : option query_value) (rows : list Row) :
  reply (db_query_dates date_in db query p1 p2) = Json rows ->
  exists s e,
    bind_date date_in p1 = Bound s /\ bind_date date_in p2 = Bound e
    /\ rows = query s e.
Proof.
  unfold reply, db_query_dates. destruct (online db); [| discriminate].
  destruct (bind_date date_in p1) as [| s]; [discriminate |].
  destruct (bind_date date_in p2) as [| e]; [discriminate |].
  intro H. inversion H. now exists s, e.
Qed.

Lemma daily_sales_rows_days (db : database) (s e : option date) :
  StronglySorted (fun a b => day a < day b) (daily_sales_rows db s e)
  /\ forall r, In r (daily_sales_rows db s e) ->
       (forall d, s = Some d -> d <= day r)
       /\ (forall d, e = Some d -> day r <= d).
Proof.
  unfold daily_sales_rows.
  set (groups := group_by Z.eq_dec (fun o => DATE (ord_created_at o)) 0
                   (fun o acc => acc + ord_total_amount o)
                   (filter (in_range s e) (tbl_orders db))).
  set (mk := fun g : Z * Z => {| day := fst g; day_total_sales := snd g |}).
  split.
  - apply StronglySorted_strict.
    + apply StronglySorted_weaken
        with (R := fun a b => (day a <=? day b) = true).
      * intros a b Hab. now apply Z.leb_le.
      * apply order_by_sorted.
        -- intros x y Hxy. apply Z.leb_le. apply Z.leb_gt in Hxy. lia.
        -- intros x y z H1 H2. apply Z.leb_le.
           apply Z.leb_le in H1, H2. lia.
    + eapply Permutation_NoDup.
      * apply Permutation_map. symmetry. apply order_by_perm.
      * rewrite map_map. cbn. apply group_by_NoDup.
  - intros r Hr. apply order_by_In in Hr. apply in_map_iff in Hr.
    destruct Hr as ([d total] & <- & Hg). cbn [day mk fst].
    assert (Hk : In d (map fst groups))
      by (change d with (fst (d, total)); now apply in_map).
    apply group_by_keys in Hk. destruct Hk as (o & Ho & <-).
    apply filter_In in Ho. now apply in_range_days.
Qed.

Lemma daily_sales_rows_totals (db : database) (s e : option date) :
  (forall r, In r (daily_sales_rows db s e) ->
     orders_of_day (day r) (orders_in_range db s e) <> []
     /\ day_total_sales r
        = sum_amounts (orders_of_day (day r) (orders_in_range db s e)))
  /\ (forall o, In o (orders_in_range db s e) ->
        exists r, In r (daily_sales_rows db s e)
                  /\ day r = DATE (ord_created_at o)).
Proof.
  split.
  - intros r Hr. unfold daily_sales_rows in Hr.
    apply order_by_In in Hr. apply in_map_iff in Hr.
    destruct Hr as ([d total] & <- & Hg). cbn [day day_total_sales fst snd].
    apply group_by_In in Hg. destruct Hg as [Ht Hne].
    split; [exact Hne |]. rewrite Ht. apply fold_right_add.
  - intros o Ho.
    assert (Hk : In (DATE (ord_created_at o))
                   (map fst (group_by Z.eq_dec
                               (fun o => DATE (ord_created_at o)) 0
                               (fun o acc => acc + ord_total_amount o)
                               (orders_in_range db s e))))
      by (apply group_by_keys; now exists o).
    apply in_map_iff in Hk. destruct Hk as ([d total] & Hd & Hg).
    cbn in Hd. subst d.
    exists {| day := DATE (ord_created_at o); day_total_sales := total |}.
    split; [| reflexivity].
    unfold daily_sales_rows. apply order_by_In. apply in_map_iff.
    now exists (DATE (ord_created_at o), total).
Qed.

(** X1: dailySales returns its rows by strictly ascending day, one row per
    day, and no day before startDate or after endDate. *)
Theorem dailySales_days (db : database) (startDate endDate : query_value)
  (rows : list day_sales) :
  dailySales date_in db startDate endDate = Json rows ->
  StronglySorted (fun a b => day a < day b) rows
  /\ exists s e,
       bind_date date_in (parseParam startDate) = Bound s
       /\ bind_date date_in (parseParam endDate) = Bound e
       /\ forall r, In r rows ->
            (forall d, s = Some d -> d <= day r)
            /\ (forall d, e = Some d -> day r <= d).
Proof.
  intro H. apply reply_rows in H. destruct H as (s & e & Hs & He & ->).
  destruct (daily_sales_rows_days db s e) as [H1 H2].
  split; [exact H1 |]. now exists s, e.
Qed.

(** X2: each row of dailySales carries the sum of total_amount over the
    orders of its day that are within the bounds, of which there is one at
    least, and every order within the bounds has the row of its day. *)
Theorem dailySales_totals (db : database) (startDate endDate : query_value)
  (rows : list day_sales) :
  dailySales date_in db startDate endDate = Json rows ->
  exists s e,
    bind_date date_in (parseParam startDate) = Bound s
    /\ bind_date date_in (parseParam endDate) = Bound e
    /\ (forall r, In r rows ->
          orders_of_day (day r) (orders_in_range db s e) <> []
          /\ day_total_sales r
             = sum_amounts (orders_of_day (day r) (orders_in_range db s e)))
    /\ (forall o, In o (orders_in_range db s e) ->
          exists r, In r rows /\ day r = DATE (ord_created_at o)).
Proof.
  intro H. apply reply_rows in H. destruct H as (s & e & Hs & He & ->).
  destruct (daily_sales_rows_totals db s e) as [H1 H2].
  exists s, e. auto.
Qed.

(** X3: salesByItem returns one row per item name, by descending
    total_sales, and each row carries the sum of the totals of the lines of
    that item whose order is within the bounds. *)
Theorem salesByItem_rows (db : database) (startDate endDate : query_value)
  (rows : list item_sales) :
  salesByItem date_in db startDate endDate = Json rows ->
  StronglySorted (fun a b => total_sales b <= total_sales a) rows
  /\ NoDup (map item_name rows)
  /\ exists s e,
       bind_date date_in (parseParam startDate) = Bound s
       /\ bind_date date_in (parseParam endDate) = Bound e
       /\ forall r, In r rows ->
            lines_of_item (item_name r) (lines_in_range db s e) <> []
            /\ total_sales r
               = sum_Z (map (fun j => li_total (snd j))
                          (lines_of_item (item_name r)
                             (lines_in_range db s e))).
Proof.
  intro H. apply reply_rows in H. destruct H as (s & e & Hs & He & ->).
  unfold sales_by_item_rows. split; [| split].
  - apply StronglySorted_weaken
      with (R := fun a b => (total_sales b <=? total_sales a) = true).
    + intros a b Hab. now apply Z.leb_le.
    + apply order_by_sorted.
      * intros x y Hxy. apply Z.leb_le. apply Z.leb_gt in Hxy. lia.
      * intros x y z H1 H2. apply Z.leb_le. apply Z.leb_le in H1, H2. lia.
  - eapply Permutation_NoDup.
    + apply Permutation_map. symmetry. apply order_by_perm.
    + rewrite map_map. cbn. apply group_by_NoDup.
  - exists s, e. split; [exact Hs | split; [exact He |]].
    intros r Hr. apply order_by_In in Hr. apply in_map_iff in Hr.
    destruct Hr as ([name total] & <- & Hg). cbn [item_name total_sales fst snd].
    apply group_by_In in Hg. destruct Hg as [Ht Hne].
    split; [exact Hne |]. rewrite Ht.
    apply (fold_right_add (fun j : order * order_item => li_total (snd j))).
Qed.

(** X4: paymentStatusDistribution returns one row per payment status; its
    counts add up to the number of orders within the bounds and its amounts
    to the sum of their total_amount. *)
Theorem paymentStatusDistribution_adds_up (db : database)
  (startDate endDate : query_value) (rows : list status_share) :
  paymentStatusDistribution date_in db startDate endDate = Json rows ->
  NoDup (map payment_status rows)
  /\ exists s e,
       bind_date date_in (parseParam startDate) = Bound s
       /\ bind_date date_in (parseParam endDate) = Bound e
       /\ sum_Z (map count_orders rows)
          = Z.of_nat (List.length (orders_in_range db s e))
       /\ sum_Z (map total_amount rows)
          = sum_amounts (orders_in_range db s e)
       /\ forall r, In r rows ->
            count_orders r
            = Z.of_nat (List.length (orders_of_status (payment_status r)
                                       (orders_in_range db s e)))
            /\ 1 <= count_orders r.
Proof.
  intro H. apply reply_rows in H. destruct H as (s & e & Hs & He & ->).
  unfold payment_status_rows. split.
  - rewrite map_map. cbn. apply group_by_NoDup.
  - exists s, e. split; [exact Hs | split; [exact He | split; [| split]]].
    + rewrite map_map. cbn [count_orders].
      rewrite (group_by_measure option_string_dec ord_payment_status (0, 0)
                 (count_and_sum ord_total_amount)
                 (fun a : Z * Z => fst a) (fun _ => 1)); [| reflexivity | reflexivity].
      fold (orders_in_range db s e).
      induction (orders_in_range db s e) as [| o l IH]; [reflexivity |].
      cbn [map List.length]. unfold sum_Z in *. cbn [fold_right].
      rewrite IH. lia.
    + rewrite map_map. cbn [total_amount].
      rewrite (group_by_measure option_string_dec ord_payment_status (0, 0)
                 (count_and_sum ord_total_amount)
                 (fun a : Z * Z => snd a) ord_total_amount);
        [reflexivity | reflexivity | reflexivity].
    + intros r Hr. apply in_map_iff in Hr.
      destruct Hr as ([st [cnt total]] & <- & Hg).
      cbn [payment_status count_orders fst snd].
      apply group_by_In in Hg. destruct Hg as [Ht Hne].
      rewrite fold_count_and_sum in Ht. inversion Ht; subst.
      fold (orders_in_range db s e) in *.
      fold (orders_of_status st (orders_in_range db s e)) in *.
      split; [reflexivity |].
      destruct (orders_of_status st (orders_in_range db s e));
        [contradiction | cbn [List.length]; lia].
Qed.

(** X5: when the store reads endDate as a day before startDate, the three
    date-filtered queries answer with no row. *)
Theorem inverted_bounds_empty (db : database) (s e : string) (ds de : date) :
  online db = true ->
  date_in s = Some ds -> date_in e = Some de -> de < ds ->
  salesByItem date_in db (QString s) (QString e) = Json []
  /\ dailySales date_in db (QString s) (QString e) = Json []
  /\ paymentStatusDistribution date_in db (QString s) (QString e) = Json [].
Proof.
  intros Hon Hs He Hlt.
  assert (Ho : filter (in_range (Some ds) (Some de)) (tbl_orders db) = []).
  { induction (tbl_orders db) as [| o l IH]; [reflexivity |].
    cbn. now rewrite in_range_inverted. }
  assert (Hj : filter (fun j => in_range (Some ds) (Some de) (fst j))
                 (join_items db) = []).
  { induction (join_items db) as [| j l IH]; [reflexivity |].
    cbn. now rewrite in_range_inverted. }
  unfold salesByItem, dailySales, paymentStatusDistribution, db_query_dates.
  cbn [parseParam bind_date]. rewrite Hon, Hs, He.
  unfold sales_by_item_rows, daily_sales_rows, payment_status_rows.
  rewrite Ho, Hj. repeat split.
Qed.

End QueryFacts.

(** ** Whole days from the start date on *)

Lemma filter_filter_implied {T} (f g : T -> bool) (l : list T) :
  (forall x, f x = true -> g x = true) ->
  filter f (filter g l) = filter f l.
Proof.
  intro H. induction l as [| x rest IH]; cbn; [reflexivity |].
  destruct (g x) eqn:G; cbn.
  - now rewrite IH.
  - destruct (f x) eqn:F; [| exact IH].
    apply H in F. congruence.
Qed.

Lemma in_range_from_day (d : date) (o : order) :
  in_range (Some d) None o = true <-> d <= DATE (ord_created_at o).
Proof.
  unfold in_range, DATE, midnight. rewrite andb_true_r, Z.leb_le.
  split; intro H.
  - apply Z.div_le_lower_bound; lia.
  - pose proof (Z.mul_div_le (ord_created_at o) 86400).
    assert (d * 86400 <= ord_created_at o / 86400 * 86400) by nia. lia.
Qed.

(** X16: with a startDate and no endDate, dailySales has a row for every
    day, from the start day on, on which there is an order, and the row
    carries the sum over all the orders of that day, at whatever time of
    the day they were made, the start day included. *)
Theorem dailySales_from_start_whole_days (date_in : string -> option date)
  (db : database) (s : string) (d : date) (rows : list day_sales) :
  date_in s = Some d ->
  dailySales date_in db (QString s) QUndefined = Json rows ->
  (forall r, In r rows ->
     d <= day r
     /\ day_total_sales r = sum_amounts (orders_of_day (day r) (tbl_orders db)))
  /\ (forall o, In o (tbl_orders db) -> d <= DATE (ord_created_at o) ->
        exists r, In r rows /\ day r = DATE (ord_created_at o)).
Proof.
  intros Hs H. apply reply_rows in H.
  destruct H as (s1 & e1 & Hs1 & He1 & ->).
  cbn [parseParam bind_date] in Hs1, He1. rewrite Hs in Hs1.
  inversion Hs1; inversion He1; subst.
  destruct (daily_sales_rows_days db (Some d) None) as [_ Hb].
  destruct (daily_sales_rows_totals db (Some d) None) as [Ht Hc].
  split.
  - intros r Hr. destruct (Hb r Hr) as [Hlo _]. specialize (Hlo d eq_refl).
    split; [exact Hlo |].
    destruct (Ht r Hr) as [_ ->]. f_equal.
    unfold orders_of_day, orders_in_range, group_rows.
    apply filter_filter_implied. intros o Ho.
    apply in_range_from_day.
    destruct (Z.eq_dec (day r) (DATE (ord_created_at o))) as [<- | ];
      [exact Hlo | discriminate].
  - intros o Ho Hd. apply Hc. unfold orders_in_range. apply filter_In.
    split; [exact Ho | now apply in_range_from_day].
Qed.

Lemma dailySales_from_start_whole_days_witness :
  iso_date_in "2024-01-15" = Some 19737 /\
  dailySales iso_date_in two_meals (QString "2024-01-15") QUndefined
  = Json [{| day := 19737; day_total_sales := 10620 |}]
  /\ (forall r, In r [{| day := 19737; day_total_sales := 10620 |}] ->
        19737 <= day r
        /\ day_total_sales r
           = sum_amounts (orders_of_day (day r) (tbl_orders two_meals))).
Proof.
  split; [reflexivity | split; [reflexivity |]].
  exact (proj1 (dailySales_from_start_whole_days iso_date_in two_meals
                  "2024-01-15" 19737 _ eq_refl eq_refl)).
Defined.

(** ** The five highest pending customers *)

(** X6: topPendingCustomers returns each customer once, and a customer
    with a pending order who is not returned has a pending total no higher
    than that of any customer returned. *)
Theorem topPendingCustomers_are_top (db : database)
  (rows : list pending_customer) :
  topPendingCustomers db = Json rows ->
  NoDup (map customer_key rows)
  /\ forall name phone,
       pending_orders_of db name phone <> [] ->
       In (name, phone) (map customer_key rows)
       \/ forall r, In r rows ->
            sum_amounts (pending_orders_of db name phone)
            <= total_pending_amount r.
Proof.
  unfold topPendingCustomers, db_query_plain, reply.
  destruct (online db); [| discriminate].
  intro H. inversion H as [Hrows]. clear H.
  unfold top_pending_rows.
  set (groups := group_by customer_dec customer_of (0, 0)
                   (count_and_sum ord_total_amount)
                   (filter is_pending (tbl_orders db))).
  set (mk := fun g : (option string * option string) * (Z * Z) =>
               {| customer_name := fst (fst g); customer_phone := snd (fst g);
                  pending_bills_count := fst (snd g);
                  total_pending_amount := snd (snd g) |}).
  set (before := fun a b : pending_customer =>
                   total_pending_amount b <=? total_pending_amount a).
  set (all := order_by before (map mk groups)).
  assert (Hkeys : map customer_key (map mk groups) = map fst groups).
  { rewrite map_map. apply map_ext. now intros [[n p] a]. }
  assert (Hnd : NoDup (map customer_key all)).
  { eapply Permutation_NoDup.
    - apply Permutation_map. symmetry. apply order_by_perm.
    - rewrite Hkeys. apply group_by_NoDup. }
  assert (Hsorted : StronglySorted
                      (fun a b => total_pending_amount b
                                  <= total_pending_amount a) all).
  { apply StronglySorted_weaken with (R := fun a b => before a b = true).
    - intros a b Hab. now apply Z.leb_le.
    - apply order_by_sorted; unfold before.
      + intros x y Hxy. apply Z.leb_le. apply Z.leb_gt in Hxy. lia.
      + intros x y z H1 H2. apply Z.leb_le. apply Z.leb_le in H1, H2. lia. }
  rewrite <- (firstn_skipn 5 all) in Hnd, Hsorted.
  split.
  - rewrite map_app in Hnd. now apply NoDup_app_remove_r in Hnd.
  - intros name phone Hne.
    assert (Hk : In (name, phone) (map fst groups)).
    { apply group_by_keys. unfold pending_orders_of, group_rows in Hne.
      destruct (filter _ (filter is_pending (tbl_orders db)))
        as [| o l] eqn:E; [contradiction |].
      assert (Ho : In o (o :: l)) by now left.
      rewrite <- E in Ho. apply filter_In in Ho. destruct Ho as [Ho Hc].
      exists o. split; [exact Ho |].
      destruct (customer_dec (name, phone) (customer_of o));
        [congruence | discriminate]. }
    apply in_map_iff in Hk. destruct Hk as ([[n p] [cnt total]] & Hnp & Hg).
    cbn in Hnp. inversion Hnp; subst n p. clear Hnp.
    assert (Htotal : total = sum_amounts (pending_orders_of db name phone)).
    { apply group_by_In in Hg. destruct Hg as [Ht _].
      rewrite fold_count_and_sum in Ht. now inversion Ht. }
    assert (Hall : In (mk ((name, phone), (cnt, total))) all).
    { apply order_by_In. now apply in_map. }
    rewrite <- (firstn_skipn 5 all) in Hall. apply in_app_or in Hall.
    destruct Hall as [Hin | Hout].
    + left. apply in_map_iff. now exists (mk ((name, phone), (cnt, total))).
    + right. intros r Hr. rewrite <- Htotal.
      apply (StronglySorted_app_inv _ _ _ Hsorted r _ Hr Hout).
Qed.

(** ** The queries on a table of two orders *)

Lemma dailySales_days_witness :
  dailySales iso_date_in two_meals (QString "2024-01-14") QUndefined
  = Json [{| day := 19736; day_total_sales := 4500 |};
          {| day := 19737; day_total_sales := 10620 |}]
  /\ StronglySorted (fun a b => day a < day b)
       [{| day := 19736; day_total_sales := 4500 |};
        {| day := 19737; day_total_sales := 10620 |}].
Proof.
  split; [reflexivity |].
  exact (proj1 (dailySales_days iso_date_in two_meals (QString "2024-01-14")
                  QUndefined _ eq_refl)).
Defined.

Lemma dailySales_totals_witness :
  dailySales iso_date_in two_meals QUndefined QUndefined
  = Json [{| day := 19736; day_total_sales := 4500 |};
          {| day := 19737; day_total_sales := 10620 |}]
  /\ exists s e,
       bind_date iso_date_in (parseParam QUndefined) = Bound s
       /\ bind_date iso_date_in (parseParam QUndefined) = Bound e
       /\ (forall r,
             In r [{| day := 19736; day_total_sales := 4500 |};
                   {| day := 19737; day_total_sales := 10620 |}] ->
             orders_of_day (day r) (orders_in_range two_meals s e) <> []
             /\ day_total_sales r
                = sum_amounts
                    (orders_of_day (day r) (orders_in_range two_meals s e)))
       /\ (forall o, In o (orders_in_range two_meals s e) ->
             exists r,
               In r [{| day := 19736; day_total_sales := 4500 |};
                     {| day := 19737; day_total_sales := 10620 |}]
               /\ day r = DATE (ord_created_at o)).
Proof.
  split; [reflexivity |].
  exact (dailySales_totals iso_date_in two_meals QUndefined QUndefined _
           eq_refl).
Defined.

Lemma salesByItem_rows_witness :
  salesByItem iso_date_in two_meals QUndefined QUndefined
  = Json [{| item_name := Some "Tea"%string; total_sales := 10000 |};
          {| item_name := Some "Naan"%string; total_sales := 4000 |}]
  /\ StronglySorted (fun a b => total_sales b <= total_sales a)
       [{| item_name := Some "Tea"%string; total_sales := 10000 |};
        {| item_name := Some "Naan"%string; total_sales := 4000 |}].
Proof.
  split; [reflexivity |].
  exact (proj1 (salesByItem_rows iso_date_in two_meals QUndefined QUndefined
                  _ eq_refl)).
Defined.

Lemma paymentStatusDistribution_adds_up_witness :
  paymentStatusDistribution iso_date_in two_meals QUndefined QUndefined
  = Json [{| payment_status := Some "Paid"%string; count_orders := 1;
             total_amount := 4500 |};
          {| payment_status := Some "Pending"%string; count_orders := 1;
             total_amount := 10620 |}]
  /\ NoDup (map payment_status
              [{| payment_status := Some "Paid"%string; count_orders := 1;
                  total_amount := 4500 |};
               {| payment_status := Some "Pending"%string; count_orders := 1;
                  total_amount := 10620 |}]).
Proof.
  split; [reflexivity |].
  exact (proj1 (paymentStatusDistribution_adds_up iso_date_in two_meals
                  QUndefined QUndefined _ eq_refl)).
Defined.

Lemma inverted_bounds_empty_witness :
  online two_meals = true /\
  iso_date_in "2024-01-15" = Some 19737 /\
  iso_date_in "2024-01-14" = Some 19736 /\ 19736 < 19737 /\
  dailySales iso_date_in two_meals (QString "2024-01-15")
    (QString "2024-01-14") = Json [].
Proof.
  split; [reflexivity | split; [reflexivity | split; [reflexivity |
    split; [reflexivity |]]]].
  exact (proj1 (proj2 (inverted_bounds_empty iso_date_in two_meals
                         "2024-01-15" "2024-01-14" 19737 19736
                         eq_refl eq_refl eq_refl eq_refl))).
Defined.

Lemma topPendingCustomers_are_top_witness :
  topPendingCustomers two_meals
  = Json [{| customer_name := Some "Asha"%string; customer_phone := None;
             pending_bills_count := 1; total_pending_amount := 10620 |}]
  /\ NoDup (map customer_key
              [{| customer_name := Some "Asha"%string; customer_phone := None;
                  pending_bills_count := 1; total_pending_amount := 10620 |}]).
Proof.
  split; [reflexivity |].
  exact (proj1 (topPendingCustomers_are_top two_meals _ eq_refl)).
Defined.
